(** * Authentication and role management of [assignment2.js]

    A shallow embedding of the Express application of [src/assignment2.js]
    (its first, most recent listing: lines 1-253) and the properties of its
    signup, login, authorization and promote/demote handlers.

    Modelling conventions.
    - JavaScript strings are Rocq [string]s (code units below 128), so
      [String.prototype.toLowerCase] is the ASCII case mapping.
    - The [users] collection is the list of its documents in insertion
      order; [findOne] and [updateOne] act on the first match, as MongoDB
      does, and the storage driver is taken to be reliable (it raises only
      what the handler's own code makes it raise).
    - An [ObjectId] is the 96-bit number its 24 hexadecimal digits spell.
    - The external libraries the handlers call are parameters of the
      development: Joi's e-mail syntax check and bcrypt's [hash] and
      [compare].
    - A handler is a computation over the request-scoped state
      ([req.session.user], the collection, the calls made on [res]) that
      ends normally, by [return], or by a thrown exception. *)

From Stdlib Require Import NArith Ascii String.
From stdpp Require Import base decidable option list strings pretty gmap.

Local Open Scope string_scope.
Local Open Scope N_scope.
Local Open Scope list_scope.

(** ** Strings *)

(** The double-quote character, for the HTML and Joi messages. *)
Definition dq : string := String (ascii_of_N 34) EmptyString.

Definition quoted (s : string) : string := dq +:+ s +:+ dq.

Definition lower_ascii (c : ascii) : ascii :=
  let n := N_of_ascii c in
  if (65 <=? n) && (n <=? 90) then ascii_of_N (n + 32) else c.

(** [s.toLowerCase()] *)
Fixpoint toLowerCase (s : string) : string :=
  match s with
  | EmptyString => EmptyString
  | String c r => String (lower_ascii c) (toLowerCase r)
  end.

(** ** ObjectId *)

Definition ObjectId : Type := N.

Definition hex_digit (c : ascii) : option N :=
  let n := N_of_ascii c in
  if (48 <=? n) && (n <=? 57) then Some (n - 48)
  else if (97 <=? n) && (n <=? 102) then Some (n - 87)
  else if (65 <=? n) && (n <=? 70) then Some (n - 55)
  else None.

Fixpoint hex_value (s : string) (acc : N) : option N :=
  match s with
  | EmptyString => Some acc
  | String c r =>
      match hex_digit c with
      | Some d => hex_value r (16 * acc + d)
      | None => None
      end
  end.

(** [new ObjectId(s)] for a string [s]: the identifier when [s] is 24
    hexadecimal digits, [None] when the constructor throws. *)
Definition parse_ObjectId (s : string) : option ObjectId :=
  if (String.length s =? 24)%nat then hex_value s 0 else None.

(** ** Documents and session snapshots *)

Module User.

(** A document of the [users] collection. [type] is absent in documents
    written before roles existed, hence the option. *)
Record t : Type := mk {
  _id : ObjectId;
  name : string;
  email : string;
  password : string;
  type : option string
}.

End User.

Module SessionUser.

(** The value of [req.session.user]; signup stores no [id]. *)
Record t : Type := mk {
  id : option ObjectId;
  name : string;
  email : string;
  type : string
}.

End SessionUser.

#[global] Instance User_eq_dec : EqDecision User.t.
Proof. solve_decision. Defined.

#[global] Instance SessionUser_eq_dec : EqDecision SessionUser.t.
Proof. solve_decision. Defined.

(** ** The [users] collection *)

Inductive Filter : Type :=
| by_email (e : string)
| by_id (i : ObjectId).

Definition matches (q : Filter) (u : User.t) : bool :=
  match q with
  | by_email e => bool_decide (User.email u = e)
  | by_id i => bool_decide (User._id u = i)
  end.

(** [collection.findOne(q)] *)
Fixpoint findOne (q : Filter) (c : list User.t) : option User.t :=
  match c with
  | [] => None
  | u :: r => if matches q u then Some u else findOne q r
  end.

(** [collection.updateOne(q, upd)]: the first match only. *)
Fixpoint updateOne (q : Filter) (upd : User.t → User.t) (c : list User.t)
  : list User.t :=
  match c with
  | [] => []
  | u :: r => if matches q u then upd u :: r else u :: updateOne q upd r
  end.

(** [{ $set: { type: r } }] *)
Definition set_type (r : string) (u : User.t) : User.t :=
  User.mk (User._id u) (User.name u) (User.email u) (User.password u) (Some r).

Definition max_id (c : list User.t) : N :=
  foldr (λ u m, N.max (User._id u) m) 0 c.

(** The identifier the driver gives an inserted document: one that no
    document of the collection has. *)
Definition fresh_id (c : list User.t) : ObjectId := N.succ (max_id c).

(** [collection.insertOne(doc)], [doc] given without its [_id]. *)
Definition insertOne (doc : ObjectId → User.t) (c : list User.t) : list User.t :=
  c ++ [doc (fresh_id c)].

(** ** Responses *)

(** A value passed to a view. *)
Inductive Local : Type :=
| LBool (b : bool)
| LStr (s : string)
| LUsers (us : list User.t).

(** The calls a handler makes on [res], in order. *)
Inductive ResAction : Type :=
| Status (code : nat)
| Send (html : string)
| SendStatus (code : nat)
| Render (view : string) (locals : list (string * Local))
| Redirect (path : string).

(** ** Handlers *)

Inductive Exn : Type :=
| BSONError
| TypeError.

(** How a piece of a handler's body ends. *)
Inductive Completion (A : Type) : Type :=
| Next (a : A)
| Return
| Throw (e : Exn).
Arguments Next {A} a.
Arguments Return {A}.
Arguments Throw {A} e.

(** The state one request works on. *)
Record HState : Type := mkHState {
  db : list User.t;
  session_user : option SessionUser.t;
  response : list ResAction
}.

Definition Handler (A : Type) : Type := HState → Completion A * HState.

#[global] Instance handler_ret : MRet Handler :=
  λ A a st, (Next a, st).

#[global] Instance handler_bind : MBind Handler :=
  λ A B k m st,
    match m st with
    | (Next a, st') => k a st'
    | (Return, st') => (Return, st')
    | (Throw e, st') => (Throw e, st')
    end.

(** [return;] *)
Definition return_ {A : Type} : Handler A := λ st, (Return, st).

(** [throw e] *)
Definition throw {A : Type} (e : Exn) : Handler A := λ st, (Throw e, st).

(** [try { body } catch (err) { handler }] *)
Definition try_catch (body : Handler unit) (handler : Exn → Handler unit)
  : Handler unit :=
  λ st,
    match body st with
    | (Throw e, st') => handler e st'
    | r => r
    end.

(** [if (c) { body }] *)
Definition when_ (c : bool) (body : Handler unit) : Handler unit :=
  if c then body else mret ().

(** [o.f], a [TypeError] when [o] is [null] or [undefined]. *)
Definition prop {O A : Type} (o : option O) (f : O → A) : Handler A :=
  match o with
  | Some x => mret (f x)
  | None => throw TypeError
  end.

(** [if (o)] for an object or [null]/[undefined]. *)
Definition truthy {O : Type} (o : option O) : bool :=
  match o with Some _ => true | None => false end.

(** [!o] *)
Definition not_ {O : Type} (o : option O) : bool := negb (truthy o).

Definition emit (a : ResAction) : Handler unit :=
  λ st, (Next (), mkHState (db st) (session_user st) (response st ++ [a])).

Definition res_status (code : nat) : Handler unit := emit (Status code).
Definition res_send (html : string) : Handler unit := emit (Send html).
Definition res_sendStatus (code : nat) : Handler unit := emit (SendStatus code).
Definition res_render (view : string) (locals : list (string * Local))
  : Handler unit := emit (Render view locals).
Definition res_redirect (path : string) : Handler unit := emit (Redirect path).

(** [req.session.user] *)
Definition get_session_user : Handler (option SessionUser.t) :=
  λ st, (Next (session_user st), st).

(** [req.session.user = u] *)
Definition set_session_user (u : SessionUser.t) : Handler unit :=
  λ st, (Next (), mkHState (db st) (Some u) (response st)).

(** [client.db().collection('users')] and its operations. *)
Definition users_findOne (q : Filter) : Handler (option User.t) :=
  λ st, (Next (findOne q (db st)), st).

Definition users_find_toArray : Handler (list User.t) :=
  λ st, (Next (db st), st).

Definition users_updateOne (q : Filter) (upd : User.t → User.t) : Handler unit :=
  λ st, (Next (), mkHState (updateOne q upd (db st)) (session_user st) (response st)).

Definition users_insertOne (doc : ObjectId → User.t) : Handler unit :=
  λ st, (Next (), mkHState (insertOne doc (db st)) (session_user st) (response st)).

(** [new ObjectId(s)] *)
Definition new_ObjectId (s : string) : Handler ObjectId :=
  match parse_ObjectId s with
  | Some i => mret i
  | None => throw BSONError
  end.

(** ** Request bodies and the Joi schemas *)

(** The fields of each form, absent or a string. *)
Record SignupBody : Type := mkSignupBody {
  su_name : option string;
  su_email : option string;
  su_password : option string
}.

Record LoginBody : Type := mkLoginBody {
  li_email : option string;
  li_password : option string
}.

Record AdminBody : Type := mkAdminBody {
  userId : string
}.

(** [Joi.string()...required()] on the value of key [key]: the value is
    required and not empty, then the rule is applied; the result is the
    error message or the value. *)
Definition joi_string (key : string) (rule : string → option string)
    (v : option string) : string + string :=
  match v with
  | None => inl (quoted key +:+ " is required")
  | Some s =>
      if bool_decide (s = EmptyString)
      then inl (quoted key +:+ " is not allowed to be empty")
      else match rule s with
           | Some msg => inl (quoted key +:+ msg)
           | None => inr s
           end
  end.

(** [.max(n)] *)
Definition joi_max (n : nat) (s : string) : option string :=
  if (String.length s <=? n)%nat then None
  else Some (" length must be less than or equal to " +:+ pretty n +:+ " characters long").

(** [.min(n)] *)
Definition joi_min (n : nat) (s : string) : option string :=
  if (n <=? String.length s)%nat then None
  else Some (" length must be at least " +:+ pretty n +:+ " characters long").

(** No rule beyond [Joi.string().required()]. *)
Definition joi_any (s : string) : option string := None.

Definition try_again (form : string) : string :=
  "<a href=" +:+ quoted form +:+ ">Try again</a>".

Definition validation_page (error form : string) : string :=
  "<p>" +:+ error +:+ "</p>" +:+ try_again form.

Definition already_registered_page : string :=
  "<p>Email already registered.</p>" +:+ try_again "/signup".

Definition invalid_credentials_page : string :=
  "<p>Invalid email/password combination</p>" +:+ try_again "/login".

Definition nl : string := String (ascii_of_N 10) EmptyString.

Fixpoint spaces (n : nat) : string :=
  match n with
  | O => EmptyString
  | S k => String (ascii_of_N 32) (spaces k)
  end.

Definition cannot_demote_yourself_page : string :=
  nl +:+ spaces 24 +:+ "<p>You cannot demote yourself.</p>" +:+
  nl +:+ spaces 24 +:+ "<a href=" +:+ quoted "/admin" +:+ ">Go back</a>" +:+
  nl +:+ spaces 20.

(** ** The external libraries *)

(** What the handlers use of Joi and bcrypt. [bcrypt_hash p s] is
    [bcrypt.hash(p, 10)] when the library draws the salt [s]. *)
Record Externals : Type := mkExternals {
  joi_email : string → bool;
  bcrypt_hash : string → string → string;
  bcrypt_compare : string → string → bool
}.

(** [v || d] for a string or [undefined]. *)
Definition or_default (v : option string) (d : string) : string :=
  match v with
  | Some s => if bool_decide (s = EmptyString) then d else s
  | None => d
  end.

(** [!req.session.user || req.session.user.type !== 'admin'] *)
Definition not_admin (u : option SessionUser.t) : bool :=
  not_ u ||
  match u with
  | Some s => negb (bool_decide (SessionUser.type s = "admin"))
  | None => false
  end.

Section Routes.

Context (lib : Externals).

(** [.email()] *)
Definition joi_email_rule (s : string) : option string :=
  if joi_email lib s then None else Some " must be a valid email".

(** [signupSchema.validate(req.body)]: the first error, or the value. *)
Definition signupSchema_validate (b : SignupBody)
  : string + (string * string * string) :=
  match joi_string "name" (joi_max 30) (su_name b) with
  | inl e => inl e
  | inr name =>
      match joi_string "email" joi_email_rule (su_email b) with
      | inl e => inl e
      | inr email =>
          match joi_string "password" (joi_min 6) (su_password b) with
          | inl e => inl e
          | inr password => inr (name, email, password)
          end
      end
  end.

(** [loginSchema.validate(req.body)] *)
Definition loginSchema_validate (b : LoginBody) : string + (string * string) :=
  match joi_string "email" joi_email_rule (li_email b) with
  | inl e => inl e
  | inr email =>
      match joi_string "password" joi_any (li_password b) with
      | inl e => inl e
      | inr password => inr (email, password)
      end
  end.

(** [app.post('/signupSubmit', ...)], lines 62-100. *)
Definition signupSubmit (salt : string) (body : SignupBody) : Handler unit :=
  try_catch
    (match signupSchema_validate body with
     | inl error => res_send (validation_page error "/signup");; return_
     | inr (name, email, password) =>
         let normalizedEmail := toLowerCase email in
         existingUser ← users_findOne (by_email normalizedEmail);
         when_ (truthy existingUser)
           (res_send already_registered_page;; return_);;
         let hashcode := bcrypt_hash lib password salt in
         users_insertOne
           (λ i, User.mk i name normalizedEmail hashcode (Some "user"));;
         set_session_user (SessionUser.mk None name normalizedEmail "user");;
         res_redirect "/members"
     end)
    (λ err,
       res_status 500;;
       res_send "An unexpected error occurred during registration. Please try again later.").

(** [app.post('/loginSubmit', ...)], lines 106-141. *)
Definition loginSubmit (body : LoginBody) : Handler unit :=
  match loginSchema_validate body with
  | inl error => res_send (validation_page error "/login");; return_
  | inr (email, password) =>
      try_catch
        (user ← users_findOne (by_email email);
         when_ (not_ user) (res_send invalid_credentials_page;; return_);;
         stored ← prop user User.password;
         let passwordMatch := bcrypt_compare lib password stored in
         when_ (negb passwordMatch)
           (res_send invalid_credentials_page;; return_);;
         _id ← prop user User._id;
         name ← prop user User.name;
         email ← prop user User.email;
         type ← prop user User.type;
         set_session_user
           (SessionUser.mk (Some _id) name email (or_default type "user"));;
         res_redirect "/members")
        (λ err,
           res_status 500;;
           res_send "An unexpected error occurred during login. Please try again later.")
  end.

(** [app.get('/members', ...)], lines 143-155. *)
Definition members : Handler unit :=
  user ← get_session_user;
  when_ (not_ user) (res_redirect "/";; return_);;
  name ← prop user SessionUser.name;
  type ← prop user SessionUser.type;
  res_render "members"
    [("user", LStr name); ("page", LStr "members");
     ("loggedInConfirmation", LBool true);
     ("isAdmin", LBool (bool_decide (type = "admin")))].

(** [app.get('/admin', ...)], lines 168-188. *)
Definition admin : Handler unit :=
  user ← get_session_user;
  when_ (not_ user) (res_redirect "/login";; return_);;
  type ← prop user SessionUser.type;
  when_ (negb (bool_decide (type = "admin")))
    (res_status 403;; res_render "403" [("page", LStr "403")];; return_);;
  try_catch
    (users ← users_find_toArray;
     res_render "admin"
       [("users", LUsers users); ("loggedInConfirmation", LBool true);
        ("isAdmin", LBool true); ("page", LStr "admin")])
    (λ err,
       res_status 500;;
       res_render "error" [("message", LStr "Database error")]).

(** [app.post('/admin/promote', ...)], lines 191-206. *)
Definition promote (body : AdminBody) : Handler unit :=
  user ← get_session_user;
  when_ (not_admin user) (res_sendStatus 403;; return_);;
  try_catch
    (_id ← new_ObjectId (userId body);
     users_updateOne (by_id _id) (set_type "admin");;
     res_redirect "/admin")
    (λ err,
       res_status 500;;
       res_render "error" [("message", LStr "Error promoting user")]).

(** [app.post('/admin/demote', ...)], lines 209-238. The not-found
    branch responds and, having no [return], falls through to the read
    of [targetUser.email]. *)
Definition demote (body : AdminBody) : Handler unit :=
  user ← get_session_user;
  when_ (not_admin user) (res_sendStatus 403;; return_);;
  try_catch
    (_id ← new_ObjectId (userId body);
     targetUser ← users_findOne (by_id _id);
     when_ (not_ targetUser)
       (res_status 404;; res_render "404" [("page", LStr "404")]);;
     targetEmail ← prop targetUser User.email;
     callerEmail ← prop user SessionUser.email;
     when_ (bool_decide (targetEmail = callerEmail))
       (res_send cannot_demote_yourself_page;; return_);;
     _id ← new_ObjectId (userId body);
     users_updateOne (by_id _id) (set_type "user");;
     res_redirect "/admin")
    (λ err,
       res_status 500;;
       res_render "error" [("message", LStr "Error demoting user")]).

End Routes.

(** ** The session middleware and the server *)

(** The persistent state: the [users] collection and the [sessions]
    collection, the latter keyed by session identifier; a session's data
    is its [user] snapshot, if it has one. *)
Record World : Type := mkWorld {
  users : list User.t;
  sessions : gmap string (option SessionUser.t)
}.

(** A request as the middleware sees it: the session identifier of its
    cookie, if any, and the identifier the middleware would give a new
    session. *)
Record Conn : Type := mkConn {
  cookie : option string;
  new_sid : string
}.

(** What the client gets back. *)
Record Reply : Type := mkReply {
  calls : list ResAction;
  set_cookie : option string
}.

(** [express-session] before the handler: the stored session of the
    cookie, or a new empty one. *)
Definition load_session (c : Conn) (w : World) : string * option SessionUser.t :=
  match cookie c with
  | Some sid =>
      match sessions w !! sid with
      | Some s => (sid, s)
      | None => (new_sid c, None)
      end
  | None => (new_sid c, None)
  end.

(** A request served: the session is loaded, the handler runs, and the
    session is written back (and its cookie sent) only if the handler
    changed it ([resave: false], [saveUninitialized: false]). *)
Definition serve (h : Handler unit) (c : Conn) (w : World) : World * Reply :=
  let '(sid, s0) := load_session c w in
  let st := (h (mkHState (users w) s0 [])).2 in
  if decide (session_user st = s0)
  then (mkWorld (db st) (sessions w), mkReply (response st) None)
  else (mkWorld (db st) (<[sid := session_user st]> (sessions w)),
        mkReply (response st) (Some sid)).

(** The session a connection is served under. *)
Definition caller (c : Conn) (w : World) : option SessionUser.t :=
  (load_session c w).2.

(** ** An instance of the external libraries

    Stand-ins with the interface of the real ones, to run the handlers on
    concrete requests: an address is accepted when it has an [@], and the
    hash of a password is the password behind a version prefix. *)

Fixpoint has_at (s : string) : bool :=
  match s with
  | EmptyString => false
  | String c r => bool_decide (c = "@"%char) || has_at r
  end.

Definition demo_lib : Externals :=
  mkExternals has_at
    (λ p s, "$2b$10$" +:+ p)
    (λ p h, bool_decide (h = "$2b$10$" +:+ p)).

(** ** Validity of the forms, in the words of their rules *)

(** A signup input the schema accepts, in the words of the form's rules. *)
Definition valid_signup (lib : Externals) (name email password : string) : Prop :=
  name ≠ EmptyString ∧ (String.length name ≤ 30)%nat ∧
  email ≠ EmptyString ∧ joi_email lib email = true ∧
  (6 ≤ String.length password)%nat.

(** A login input the schema accepts. *)
Definition valid_login (lib : Externals) (email password : string) : Prop :=
  email ≠ EmptyString ∧ joi_email lib email = true ∧ password ≠ EmptyString.

(** ** Frame conditions *)

(** A computation that never assigns [req.session.user]. *)
Definition keeps_session {A : Type} (h : Handler A) : Prop :=
  ∀ st, session_user (h st).2 = session_user st.

(** ** Sample data *)

Definition root : SessionUser.t :=
  SessionUser.mk (Some 1) "Root" "root@x.com" "admin".

Definition root_doc : User.t :=
  User.mk 1 "Root" "root@x.com" "$2b$10$hunter22" (Some "admin").

Definition ada : SessionUser.t :=
  SessionUser.mk (Some 2) "Ada" "ada@x.com" "user".

Definition ada_doc : User.t :=
  User.mk 2 "Ada" "ada@x.com" "$2b$10$secret1" (Some "user").

(** One admin, logged in under session [root-sid]. *)
Definition world_root : World :=
  mkWorld [root_doc] {[ "root-sid" := Some root ]}.

(** The admin and a user, both logged in. *)
Definition world_ada : World :=
  mkWorld [root_doc; ada_doc]
    (<[ "ada-sid" := Some ada ]> {[ "root-sid" := Some root ]}).

Definition anonymous : Conn := mkConn None "new-sid".
Definition as_root : Conn := mkConn (Some "root-sid") "new-sid".
Definition as_ada : Conn := mkConn (Some "ada-sid") "new-sid".

Definition ada_form : SignupBody :=
  mkSignupBody (Some "Ada") (Some "Ada@x.com") (Some "secret1").

(** Request bodies of the admin page: the identifiers of the two
    documents and one that no document has. *)
Definition root_id : string := "000000000000000000000001".
Definition ada_id : string := "000000000000000000000002".
Definition no_id : string := "0000000000000000000000fF".

(** * The rest of the application *)

(** ** The remaining routes of the first listing *)

(** [app.get('/', ...)], lines 49-56. *)
Definition home : Handler unit :=
  user ← get_session_user;
  res_render "index"
    [("loggedInConfirmation", LBool (truthy user));
     ("name", LStr (or_default (SessionUser.name <$> user) EmptyString));
     ("isAdmin",
      LBool (match user with
             | Some u => bool_decide (SessionUser.type u = "admin")
             | None => false
             end));
     ("page", LStr "home")].

(** [app.use((req, res) => ...)], lines 240-242: the fallback for a request
    no route matches. *)
Definition not_found : Handler unit :=
  res_status 404;; res_render "404" [("page", LStr "404")].

(** The callback of [req.session.destroy], lines 158-164; [err] tells
    whether the store reported an error. *)
Definition logout_callback (err : bool) : Handler unit :=
  when_ err
    (res_status 500;;
     res_send "An error has occurred. Couldn't log you out.";;
     return_);;
  res_redirect "/".

(** [app.get('/logout', ...)], lines 157-165. [req.session.destroy]
    removes the session of the request from the store, and the request then
    has no session to write back; a store that fails is taken to have
    removed nothing. *)
Definition logout (store_fails : bool) (c : Conn) (w : World) : World * Reply :=
  let '(sid, s0) := load_session c w in
  let st := (logout_callback store_fails (mkHState (users w) s0 [])).2 in
  (mkWorld (db st)
     (if store_fails then sessions w else delete sid (sessions w)),
   mkReply (response st) None).

(** ** The route table *)

(** A request by the route it matches, with what the route reads of it
    and what the server draws for it (the salt of a signup, the outcome of
    the store's [destroy] at a logout). The two routes that only render a
    form, GET /signup and GET /login, are left out. *)
Inductive Request : Type :=
| GET_home
| POST_signupSubmit (salt : string) (body : SignupBody)
| POST_loginSubmit (body : LoginBody)
| GET_members
| GET_logout (store_fails : bool)
| GET_admin
| POST_admin_promote (body : AdminBody)
| POST_admin_demote (body : AdminBody)
| Unmatched.

(** The application: the handler registered for the request, run behind
    the session middleware. *)
Definition app (lib : Externals) (r : Request) (c : Conn) (w : World)
  : World * Reply :=
  match r with
  | GET_home => serve home c w
  | POST_signupSubmit salt body => serve (signupSubmit lib salt body) c w
  | POST_loginSubmit body => serve (loginSubmit lib body) c w
  | GET_members => serve members c w
  | GET_logout store_fails => logout store_fails c w
  | GET_admin => serve admin c w
  | POST_admin_promote body => serve (promote body) c w
  | POST_admin_demote body => serve (demote body) c w
  | Unmatched => serve not_found c w
  end.

(** The worlds the application reaches from an empty database. *)
Inductive reachable (lib : Externals) : World → Prop :=
| reachable_empty : reachable lib (mkWorld [] ∅)
| reachable_app r c w : reachable lib w → reachable lib (app lib r c w).1.

(** ** The third listing (lines 415-663)

    Its login and demote handlers differ from the first listing's: login
    redirects by role, and the not-found branch of demote returns. *)

Module Listing3.

(** [app.post('/loginSubmit', ...)], lines 515-554. *)
Definition loginSubmit (lib : Externals) (body : LoginBody) : Handler unit :=
  match loginSchema_validate lib body with
  | inl error => res_send (validation_page error "/login");; return_
  | inr (email, password) =>
      try_catch
        (user ← users_findOne (by_email email);
         when_ (not_ user) (res_send invalid_credentials_page;; return_);;
         stored ← prop user User.password;
         let passwordMatch := bcrypt_compare lib password stored in
         when_ (negb passwordMatch)
           (res_send invalid_credentials_page;; return_);;
         _id ← prop user User._id;
         name ← prop user User.name;
         email ← prop user User.email;
         type ← prop user User.type;
         set_session_user
           (SessionUser.mk (Some _id) name email (or_default type "user"));;
         session ← get_session_user;
         type ← prop session SessionUser.type;
         if bool_decide (type = "admin")
         then res_redirect "/admin"
         else res_redirect "/members")
        (λ err,
           res_status 500;;
           res_send "An unexpected error occurred during login. Please try again later.")
  end.

(** [app.post('/admin/demote', ...)], lines 621-650. *)
Definition demote (body : AdminBody) : Handler unit :=
  user ← get_session_user;
  when_ (not_admin user) (res_sendStatus 403;; return_);;
  try_catch
    (_id ← new_ObjectId (userId body);
     targetUser ← users_findOne (by_id _id);
     when_ (not_ targetUser)
       (res_status 404;;
        res_render "error" [("message", LStr "User not found")];;
        return_);;
     targetEmail ← prop targetUser User.email;
     callerEmail ← prop user SessionUser.email;
     when_ (bool_decide (targetEmail = callerEmail))
       (res_send cannot_demote_yourself_page;; return_);;
     _id ← new_ObjectId (userId body);
     users_updateOne (by_id _id) (set_type "user");;
     res_redirect "/admin")
    (λ err,
       res_status 500;;
       res_render "error" [("message", LStr "Error demoting user")]).

End Listing3.

(** ** What the application keeps *)

(** A computation that writes neither the collection nor the session. *)
Definition read_only {A : Type} (h : Handler A) : Prop :=
  ∀ st, db (h st).2 = db st ∧ session_user (h st).2 = session_user st.

(** What identifies a document: everything but its role. *)
Definition identity (u : User.t) : ObjectId * string * string * string :=
  (User._id u, User.name u, User.email u, User.password u).

Definition is_role (r : string) : Prop := r = "user" ∨ r = "admin".

(** No two documents share an identifier. *)
Definition ids_distinct (w : World) : Prop := NoDup (User._id <$> users w).

(** No two documents share an e-mail, and every e-mail is in lower case. *)
Definition emails_normal (w : World) : Prop :=
  NoDup (User.email <$> users w) ∧
  Forall (λ u, toLowerCase (User.email u) = User.email u) (users w).

(** Every document and every session snapshot has role user or admin. *)
Definition roles_binary (w : World) : Prop :=
  Forall (λ u, ∃ r, User.type u = Some r ∧ is_role r) (users w) ∧
  ∀ sid a, sessions w !! sid = Some (Some a) → is_role (SessionUser.type a).

(** Every session snapshot carries the name and e-mail of a document. *)
Definition sessions_bound (w : World) : Prop :=
  ∀ sid a, sessions w !! sid = Some (Some a) →
    ∃ u, u ∈ users w ∧
         User.name u = SessionUser.name a ∧ User.email u = SessionUser.email a.

(** The ways one request changes the collection. *)
Inductive users_step : list User.t → list User.t → Prop :=
| users_same c : users_step c c
| users_insert c name email hash :
    findOne (by_email (toLowerCase email)) c = None →
    users_step c
      (insertOne (λ i, User.mk i name (toLowerCase email) hash (Some "user")) c)
| users_role c i r :
    is_role r → users_step c (updateOne (by_id i) (set_type r) c).

(** The ways one request changes the session store, next to the
    collection [c] it leaves. *)
Inductive sessions_step (c : list User.t)
  : gmap string (option SessionUser.t) → gmap string (option SessionUser.t) → Prop :=
| sessions_same m : sessions_step c m m
| sessions_set m sid a u :
    u ∈ c →
    SessionUser.name a = User.name u →
    SessionUser.email a = User.email u →
    SessionUser.type a = or_default (User.type u) "user" →
    sessions_step c m (<[sid := Some a]> m)
| sessions_delete m sid : sessions_step c m (delete sid m).

(** * Properties *)

(** ** The collection *)

Lemma findOne_Some q c u : findOne q c = Some u → u ∈ c ∧ matches q u = true.
Proof.
  induction c as [|v r IH]; simpl; [done|].
  destruct (matches q v) eqn:E.
  - intros [= <-]. split; [left | done].
  - intros H. destruct (IH H). split; [by right | done].
Qed.

Lemma findOne_None q c : findOne q c = None ↔ ∀ u, u ∈ c → matches q u = false.
Proof.
  induction c as [|v r IH]; simpl.
  - split; [intros _ u Hu; inversion Hu | done].
  - destruct (matches q v) eqn:E.
    + split; [done|]. intros H. specialize (H v ltac:(left)). congruence.
    + rewrite IH. split.
      * intros H u Hu. apply elem_of_cons in Hu as [->|Hu]; auto.
      * intros H u Hu. apply H. by right.
Qed.

Lemma findOne_app_None q c d : findOne q c = None → findOne q (c ++ d) = findOne q d.
Proof.
  induction c as [|v r IH]; simpl; [done|].
  destruct (matches q v); [done | exact IH].
Qed.

Lemma updateOne_app_None q f c d :
  findOne q c = None → updateOne q f (c ++ d) = c ++ updateOne q f d.
Proof.
  induction c as [|v r IH]; simpl; [done|].
  destruct (matches q v); [done|]. intros H. by rewrite IH.
Qed.

Lemma updateOne_None q f c : findOne q c = None → updateOne q f c = c.
Proof.
  induction c as [|v r IH]; simpl; [done|].
  destruct (matches q v); [done|]. intros H. by rewrite IH.
Qed.

(** An update that leaves the matched document as it is leaves the
    collection as it is. *)
Lemma updateOne_fixed q f c u : findOne q c = Some u → f u = u → updateOne q f c = c.
Proof.
  induction c as [|v r IH]; simpl; [done|].
  destruct (matches q v).
  - intros [= ->] ->. done.
  - intros H1 H2. by rewrite IH.
Qed.

Lemma max_id_ge c u : u ∈ c → User._id u ≤ max_id c.
Proof.
  induction c as [|v r IH]; simpl.
  - intros H. inversion H.
  - intros H. apply elem_of_cons in H as [->|H]; [lia|].
    specialize (IH H). lia.
Qed.

Lemma findOne_fresh_id c : findOne (by_id (fresh_id c)) c = None.
Proof.
  apply findOne_None. intros u Hu. simpl.
  apply bool_decide_eq_false. pose proof (max_id_ge c u Hu).
  unfold fresh_id. lia.
Qed.

(** ** Validation *)

Lemma joi_string_ok key rule s :
  s ≠ EmptyString → rule s = None → joi_string key rule (Some s) = inr s.
Proof.
  intros Hs Hr. unfold joi_string.
  rewrite bool_decide_eq_false_2 by done. by rewrite Hr.
Qed.

Lemma signupSchema_validate_ok lib name email password :
  valid_signup lib name email password →
  signupSchema_validate lib (mkSignupBody (Some name) (Some email) (Some password))
  = inr (name, email, password).
Proof.
  intros (Hn & Hl & He & Hj & Hp). unfold signupSchema_validate.
  cbn [su_name su_email su_password].
  rewrite (joi_string_ok "name" (joi_max 30) name Hn); last first.
  { unfold joi_max. apply Nat.leb_le in Hl. by rewrite Hl. }
  rewrite (joi_string_ok "email" (joi_email_rule lib) email He); last first.
  { unfold joi_email_rule. by rewrite Hj. }
  rewrite (joi_string_ok "password" (joi_min 6) password); first done.
  - intros ->. simpl in Hp. lia.
  - unfold joi_min. apply Nat.leb_le in Hp. by rewrite Hp.
Qed.

Lemma loginSchema_validate_ok lib email password :
  valid_login lib email password →
  loginSchema_validate lib (mkLoginBody (Some email) (Some password))
  = inr (email, password).
Proof.
  intros (He & Hj & Hp). unfold loginSchema_validate.
  cbn [li_email li_password].
  rewrite (joi_string_ok "email" (joi_email_rule lib) email He); last first.
  { unfold joi_email_rule. by rewrite Hj. }
  by rewrite (joi_string_ok "password" joi_any password Hp).
Qed.

(** ** Running a handler *)

Ltac run_handler :=
  unfold mbind, handler_bind, mret, handler_ret, try_catch, when_, prop,
    return_, throw, res_status, res_send, res_sendStatus, res_render,
    res_redirect, emit, get_session_user, set_session_user, users_findOne,
    users_find_toArray, users_updateOne, users_insertOne, new_ObjectId;
  simpl.

Lemma world_eta w : mkWorld (users w) (sessions w) = w.
Proof. by destruct w. Qed.

(** [serve] from what the handler does to the request's state. *)
Lemma serve_run h c w r st :
  h (mkHState (users w) (caller c w) []) = (r, st) →
  serve h c w =
    if decide (session_user st = caller c w)
    then (mkWorld (db st) (sessions w), mkReply (response st) None)
    else (mkWorld (db st) (<[(load_session c w).1 := session_user st]> (sessions w)),
          mkReply (response st) (Some (load_session c w).1)).
Proof.
  unfold serve, caller. destruct (load_session c w) as [sid s0]. simpl.
  intros ->. done.
Qed.

(** A handler that leaves the collection and the session as they were
    changes nothing that persists. *)
Lemma serve_pure h c w r out :
  h (mkHState (users w) (caller c w) []) = (r, mkHState (users w) (caller c w) out) →
  serve h c w = (w, mkReply out None).
Proof.
  intros H. rewrite (serve_run _ _ _ _ _ H). simpl.
  rewrite decide_True by done. by rewrite world_eta.
Qed.

(** No exception leaves a route: whatever a route's body throws, its
    catch clause handles, so [serve] loses nothing by looking only at the
    state the handler ends in. *)
Lemma routes_do_not_throw lib salt signup_body login_body admin_body st e :
  (signupSubmit lib salt signup_body st).1 ≠ Throw e ∧
  (loginSubmit lib login_body st).1 ≠ Throw e ∧
  (members st).1 ≠ Throw e ∧
  (admin st).1 ≠ Throw e ∧
  (promote admin_body st).1 ≠ Throw e ∧
  (demote admin_body st).1 ≠ Throw e.
Proof.
  split_and!.
  - unfold signupSubmit. run_handler. repeat case_match; simplify_eq/=; done.
  - unfold loginSubmit. run_handler. repeat case_match; simplify_eq/=; done.
  - unfold members, not_. run_handler. repeat case_match; simplify_eq/=; done.
  - unfold admin, not_. run_handler. repeat case_match; simplify_eq/=; done.
  - unfold promote. run_handler. repeat case_match; simplify_eq/=; done.
  - unfold demote. run_handler. repeat case_match; simplify_eq/=; done.
Qed.

(** ** Signup *)

Lemma signup_invalid_run lib salt body e st :
  signupSchema_validate lib body = inl e →
  signupSubmit lib salt body st =
    (Return, mkHState (db st) (session_user st)
               (response st ++ [Send (validation_page e "/signup")])).
Proof. intros H. unfold signupSubmit. rewrite H. by run_handler. Qed.

Lemma signup_duplicate_run lib salt body name email password u st :
  signupSchema_validate lib body = inr (name, email, password) →
  findOne (by_email (toLowerCase email)) (db st) = Some u →
  signupSubmit lib salt body st =
    (Return, mkHState (db st) (session_user st)
               (response st ++ [Send already_registered_page])).
Proof. intros H1 H2. unfold signupSubmit. rewrite H1. run_handler. by rewrite H2. Qed.

Lemma signup_fresh_run lib salt body name email password st :
  signupSchema_validate lib body = inr (name, email, password) →
  findOne (by_email (toLowerCase email)) (db st) = None →
  signupSubmit lib salt body st =
    (Next (),
     mkHState
       (insertOne (λ i, User.mk i name (toLowerCase email)
                          (bcrypt_hash lib password salt) (Some "user")) (db st))
       (Some (SessionUser.mk None name (toLowerCase email) "user"))
       (response st ++ [Redirect "/members"])).
Proof. intros H1 H2. unfold signupSubmit. rewrite H1. run_handler. by rewrite H2. Qed.

Lemma caller_Some c w a :
  caller c w = Some a → sessions w !! (load_session c w).1 = Some (Some a).
Proof.
  unfold caller, load_session. destruct (cookie c) as [sid|]; [|done].
  destruct (sessions w !! sid) as [s|] eqn:E; simpl; [|done].
  intros ->. exact E.
Qed.

(** C1. A valid signup input (name not empty and of at most 30 characters,
    well-formed e-mail, password of at least 6 characters) whose lowercased
    e-mail no document has: the collection gains exactly one document, with
    the lowercased e-mail, role "user" and the bcrypt hash as password,
    which is not the plaintext; the request's session holds the snapshot of
    that user (and its cookie is sent to a caller who had no session), and
    the response is the redirect to /members. *)
Theorem signup_creates_user lib salt c w name email password :
  (∀ p s, bcrypt_hash lib p s ≠ p) →
  valid_signup lib name email password →
  (∀ u, u ∈ users w → User.email u ≠ toLowerCase email) →
  let body := mkSignupBody (Some name) (Some email) (Some password) in
  let sid := (load_session c w).1 in
  let out := serve (signupSubmit lib salt body) c w in
  ∃ u,
    users out.1 = users w ++ [u] ∧
    User.name u = name ∧
    User.email u = toLowerCase email ∧
    User.type u = Some "user" ∧
    User.password u = bcrypt_hash lib password salt ∧
    User.password u ≠ password ∧
    sessions out.1 !! sid
      = Some (Some (SessionUser.mk None name (toLowerCase email) "user")) ∧
    (∀ k, k ≠ sid → sessions out.1 !! k = sessions w !! k) ∧
    (caller c w = None → set_cookie out.2 = Some sid) ∧
    calls out.2 = [Redirect "/members"].
Proof.
  intros Hhash Hvalid Hunused body sid out.
  assert (Hfind : findOne (by_email (toLowerCase email)) (users w) = None).
  { apply findOne_None. intros u Hu. simpl. apply bool_decide_eq_false. auto. }
  pose proof (signup_fresh_run lib salt body name email password
                (mkHState (users w) (caller c w) [])
                (signupSchema_validate_ok _ _ _ _ Hvalid) Hfind) as Hrun.
  simpl in Hrun. subst out. rewrite (serve_run _ _ _ _ _ Hrun). simpl.
  eexists. unfold insertOne. fold sid.
  case_decide as Hsess; simpl.
  - split_and!; try done.
    + apply Hhash.
    + by apply caller_Some.
    + intros Hnone. congruence.
  - split_and!; try done.
    + apply Hhash.
    + apply lookup_insert_eq.
    + intros k Hk. by apply lookup_insert_ne.
Qed.

Lemma joi_string_inr key rule v s : joi_string key rule v = inr s → v = Some s.
Proof.
  unfold joi_string. destruct v as [x|]; [|done].
  case_bool_decide; [done|]. destruct (rule x); [done|]. by intros [= ->].
Qed.

Lemma signupSchema_validate_inr lib body name email password :
  signupSchema_validate lib body = inr (name, email, password) →
  body = mkSignupBody (Some name) (Some email) (Some password).
Proof.
  unfold signupSchema_validate. destruct body as [n e p]. simpl.
  destruct (joi_string "name" _ n) as [|n'] eqn:En; [done|].
  destruct (joi_string "email" _ e) as [|e'] eqn:Ee; [done|].
  destruct (joi_string "password" _ p) as [|p'] eqn:Ep; [done|].
  intros [= -> -> ->].
  by rewrite (joi_string_inr _ _ _ _ En), (joi_string_inr _ _ _ _ Ee),
    (joi_string_inr _ _ _ _ Ep).
Qed.

Lemma findOne_is_Some q c u :
  u ∈ c → matches q u = true → ∃ v, findOne q c = Some v.
Proof.
  intros Hu Hm. destruct (findOne q c) as [v|] eqn:E; [by exists v|].
  rewrite findOne_None in E. specialize (E u Hu). congruence.
Qed.

(** C4, as the code has it. A signup input whose lowercased e-mail is the
    e-mail of an existing document: the collection and the sessions are
    left as they were and no session cookie is sent; when the input passes
    validation, the response is the already-registered page. *)
Theorem signup_duplicate_rejected lib salt c w body email u :
  su_email body = Some email →
  u ∈ users w →
  User.email u = toLowerCase email →
  let out := serve (signupSubmit lib salt body) c w in
  out.1 = w ∧
  set_cookie out.2 = None ∧
  (∀ name password,
     body = mkSignupBody (Some name) (Some email) (Some password) →
     valid_signup lib name email password →
     calls out.2 = [Send already_registered_page]).
Proof.
  intros Hemail Hu Hdup out. subst out.
  destruct (signupSchema_validate lib body) as [e|[[n e'] p]] eqn:Hv.
  - rewrite (serve_pure _ c w Return [Send (validation_page e "/signup")]).
    2:{ by rewrite (signup_invalid_run lib salt body e _ Hv). }
    simpl. split_and!; try done.
    intros name password -> Hvalid.
    rewrite (signupSchema_validate_ok _ _ _ _ Hvalid) in Hv. done.
  - pose proof (signupSchema_validate_inr _ _ _ _ _ Hv) as ->.
    simpl in Hemail. injection Hemail as ->.
    destruct (findOne_is_Some (by_email (toLowerCase email)) (users w) u Hu)
      as [v Hv'].
    { simpl. by apply bool_decide_eq_true. }
    rewrite (serve_pure _ c w Return [Send already_registered_page]).
    2:{ by rewrite (signup_duplicate_run lib salt _ n email p v
                      (mkHState (users w) (caller c w) []) Hv Hv'). }
    done.
Qed.

(** ** Login *)

Lemma login_invalid_run lib body e st :
  loginSchema_validate lib body = inl e →
  loginSubmit lib body st =
    (Return, mkHState (db st) (session_user st)
               (response st ++ [Send (validation_page e "/login")])).
Proof. intros H. unfold loginSubmit. rewrite H. by run_handler. Qed.

Lemma login_unknown_run lib body email password st :
  loginSchema_validate lib body = inr (email, password) →
  findOne (by_email email) (db st) = None →
  loginSubmit lib body st =
    (Return, mkHState (db st) (session_user st)
               (response st ++ [Send invalid_credentials_page])).
Proof. intros H1 H2. unfold loginSubmit. rewrite H1. run_handler. by rewrite H2. Qed.

Lemma login_mismatch_run lib body email password u st :
  loginSchema_validate lib body = inr (email, password) →
  findOne (by_email email) (db st) = Some u →
  bcrypt_compare lib password (User.password u) = false →
  loginSubmit lib body st =
    (Return, mkHState (db st) (session_user st)
               (response st ++ [Send invalid_credentials_page])).
Proof.
  intros H1 H2 H3. unfold loginSubmit. rewrite H1. run_handler.
  rewrite H2. simpl. by rewrite H3.
Qed.

Lemma login_match_run lib body email password u st :
  loginSchema_validate lib body = inr (email, password) →
  findOne (by_email email) (db st) = Some u →
  bcrypt_compare lib password (User.password u) = true →
  loginSubmit lib body st =
    (Next (),
     mkHState (db st)
       (Some (SessionUser.mk (Some (User._id u)) (User.name u) (User.email u)
                (or_default (User.type u) "user")))
       (response st ++ [Redirect "/members"])).
Proof.
  intros H1 H2 H3. unfold loginSubmit. rewrite H1. run_handler.
  rewrite H2. simpl. by rewrite H3.
Qed.

Lemma loginSchema_validate_inr lib body email password :
  loginSchema_validate lib body = inr (email, password) →
  body = mkLoginBody (Some email) (Some password).
Proof.
  unfold loginSchema_validate. destruct body as [e p]. simpl.
  destruct (joi_string "email" _ e) as [|e'] eqn:Ee; [done|].
  destruct (joi_string "password" _ p) as [|p'] eqn:Ep; [done|].
  intros [= -> ->].
  by rewrite (joi_string_inr _ _ _ _ Ee), (joi_string_inr _ _ _ _ Ep).
Qed.

(** A login whose e-mail no document has, or whose password bcrypt
    rejects for the document found, gets one page and changes nothing; the
    page is the invalid-credentials page when the input passes
    validation. *)
Lemma serve_login_rejected lib c w email password :
  match findOne (by_email email) (users w) with
  | Some u => bcrypt_compare lib password (User.password u) = false
  | None => True
  end →
  ∃ page,
    serve (loginSubmit lib (mkLoginBody (Some email) (Some password))) c w
    = (w, mkReply [Send page] None) ∧
    (valid_login lib email password → page = invalid_credentials_page).
Proof.
  intros Hrej.
  destruct (loginSchema_validate lib (mkLoginBody (Some email) (Some password)))
    as [e|[e' p']] eqn:Hv.
  - exists (validation_page e "/login"). split.
    + apply (serve_pure _ c w Return).
      by rewrite (login_invalid_run lib _ e _ Hv).
    + intros Hvalid. rewrite (loginSchema_validate_ok _ _ _ Hvalid) in Hv. done.
  - pose proof (loginSchema_validate_inr _ _ _ _ Hv) as [= <- <-].
    exists invalid_credentials_page. split; [|done].
    apply (serve_pure _ c w Return).
    destruct (findOne (by_email email) (users w)) as [u|] eqn:Hu.
    + by rewrite (login_mismatch_run lib _ email password u
                    (mkHState (users w) (caller c w) []) Hv Hu Hrej).
    + by rewrite (login_unknown_run lib _ email password
                    (mkHState (users w) (caller c w) []) Hv Hu).
Qed.

(** C3, as the code has it. A registered e-mail with a password that
    bcrypt rejects, and an unregistered e-mail: neither login
    authenticates (collection and sessions stay as they were and no
    session cookie is sent); when both inputs pass validation
    (well-formed e-mail, password not empty) the two get one and the same
    reply, the generic invalid-credentials page. *)
Theorem login_failure_indistinguishable
    lib c1 w1 email1 password1 u c2 w2 email2 password2 :
  findOne (by_email email1) (users w1) = Some u →
  bcrypt_compare lib password1 (User.password u) = false →
  findOne (by_email email2) (users w2) = None →
  let wrong_password :=
    serve (loginSubmit lib (mkLoginBody (Some email1) (Some password1))) c1 w1 in
  let no_account :=
    serve (loginSubmit lib (mkLoginBody (Some email2) (Some password2))) c2 w2 in
  wrong_password.1 = w1 ∧
  set_cookie wrong_password.2 = None ∧
  no_account.1 = w2 ∧
  set_cookie no_account.2 = None ∧
  (valid_login lib email1 password1 → valid_login lib email2 password2 →
     wrong_password.2 = mkReply [Send invalid_credentials_page] None ∧
     no_account.2 = wrong_password.2).
Proof.
  intros Hu Hcmp Hno wrong_password no_account.
  subst wrong_password no_account.
  destruct (serve_login_rejected lib c1 w1 email1 password1) as (p1 & -> & Hp1).
  { by rewrite Hu. }
  destruct (serve_login_rejected lib c2 w2 email2 password2) as (p2 & -> & Hp2).
  { by rewrite Hno. }
  simpl. split_and!; try done.
  intros Hv1 Hv2. by rewrite (Hp1 Hv1), (Hp2 Hv2).
Qed.

(** C2, what the code does. The lookup of the login handler uses the
    e-mail as submitted: when no document has exactly that e-mail, a login
    that passes validation is answered with the invalid-credentials page
    and no session, although a document has the lowercased e-mail and
    bcrypt accepts the password for it. *)
Theorem login_lookup_is_case_sensitive lib c w email password u :
  valid_login lib email password →
  findOne (by_email (toLowerCase email)) (users w) = Some u →
  bcrypt_compare lib password (User.password u) = true →
  findOne (by_email email) (users w) = None →
  serve (loginSubmit lib (mkLoginBody (Some email) (Some password))) c w
  = (w, mkReply [Send invalid_credentials_page] None).
Proof.
  intros Hv _ _ Hno.
  apply (serve_pure _ c w Return).
  by rewrite (login_unknown_run lib _ email password
                (mkHState (users w) (caller c w) [])
                (loginSchema_validate_ok _ _ _ Hv) Hno).
Qed.

(** ** The authorization gate *)

Lemma not_admin_false a : SessionUser.type a = "admin" → not_admin (Some a) = false.
Proof. intros H. unfold not_admin. simpl. by rewrite bool_decide_eq_true_2. Qed.

(** C5. Without a session, GET /members and GET /admin answer with a
    redirect (to / and to /login); with a session whose role is not admin,
    GET /admin answers with status 403 and the 403 view, which is not a
    redirect. Nothing that persists changes in either case. *)
Theorem gate_redirects_or_forbids c w :
  (caller c w = None →
     serve members c w = (w, mkReply [Redirect "/"] None) ∧
     serve admin c w = (w, mkReply [Redirect "/login"] None)) ∧
  (∀ a, caller c w = Some a → SessionUser.type a ≠ "admin" →
     serve admin c w
     = (w, mkReply [Status 403; Render "403" [("page", LStr "403")]] None)).
Proof.
  split.
  - intros Hc. split.
    + apply (serve_pure _ c w Return). rewrite Hc. reflexivity.
    + apply (serve_pure _ c w Return). rewrite Hc. reflexivity.
  - intros a Hc Hrole. apply (serve_pure _ c w Return). rewrite Hc.
    unfold admin. run_handler. by rewrite bool_decide_eq_false_2.
Qed.

(** ** Promote and demote *)

Lemma promote_run body a i st :
  session_user st = Some a →
  SessionUser.type a = "admin" →
  parse_ObjectId (userId body) = Some i →
  promote body st =
    (Next (),
     mkHState (updateOne (by_id i) (set_type "admin") (db st)) (session_user st)
       (response st ++ [Redirect "/admin"])).
Proof.
  intros Hs Ha Hi. unfold promote. run_handler.
  rewrite Hs, (not_admin_false a Ha), Hi. simpl. by rewrite Hs.
Qed.

Lemma demote_other_run body a i t st :
  session_user st = Some a →
  SessionUser.type a = "admin" →
  parse_ObjectId (userId body) = Some i →
  findOne (by_id i) (db st) = Some t →
  User.email t ≠ SessionUser.email a →
  demote body st =
    (Next (),
     mkHState (updateOne (by_id i) (set_type "user") (db st)) (session_user st)
       (response st ++ [Redirect "/admin"])).
Proof.
  intros Hs Ha Hi Ht Hne. unfold demote. run_handler.
  rewrite Hs, (not_admin_false a Ha), Hi. simpl. rewrite Ht. simpl.
  rewrite bool_decide_eq_false_2 by done. simpl. by rewrite Hs.
Qed.

Lemma demote_self_run body a i t st :
  session_user st = Some a →
  SessionUser.type a = "admin" →
  parse_ObjectId (userId body) = Some i →
  findOne (by_id i) (db st) = Some t →
  User.email t = SessionUser.email a →
  demote body st =
    (Return,
     mkHState (db st) (session_user st)
       (response st ++ [Send cannot_demote_yourself_page])).
Proof.
  intros Hs Ha Hi Ht He. unfold demote. run_handler.
  rewrite Hs, (not_admin_false a Ha), Hi. simpl. rewrite Ht. simpl.
  rewrite bool_decide_eq_true_2 by done. by rewrite Hs.
Qed.

Lemma demote_missing_run body a i st :
  session_user st = Some a →
  SessionUser.type a = "admin" →
  parse_ObjectId (userId body) = Some i →
  findOne (by_id i) (db st) = None →
  demote body st =
    (Next (),
     mkHState (db st) (session_user st)
       (response st ++
          [Status 404; Render "404" [("page", LStr "404")];
           Status 500; Render "error" [("message", LStr "Error demoting user")]])).
Proof.
  intros Hs Ha Hi Ht. unfold demote. run_handler.
  rewrite Hs, (not_admin_false a Ha), Hi. simpl. rewrite Ht. simpl.
  by rewrite Hs, <- !app_assoc.
Qed.

Lemma serve_promote c w s a i :
  caller c w = Some a →
  SessionUser.type a = "admin" →
  parse_ObjectId s = Some i →
  serve (promote (mkAdminBody s)) c w
  = (mkWorld (updateOne (by_id i) (set_type "admin") (users w)) (sessions w),
     mkReply [Redirect "/admin"] None).
Proof.
  intros Hc Ha Hi.
  rewrite (serve_run _ c w _ _
             (promote_run (mkAdminBody s) a i
                (mkHState (users w) (caller c w) []) Hc Ha Hi)).
  simpl. by rewrite decide_True.
Qed.

Lemma serve_demote_other c w s a i t :
  caller c w = Some a →
  SessionUser.type a = "admin" →
  parse_ObjectId s = Some i →
  findOne (by_id i) (users w) = Some t →
  User.email t ≠ SessionUser.email a →
  serve (demote (mkAdminBody s)) c w
  = (mkWorld (updateOne (by_id i) (set_type "user") (users w)) (sessions w),
     mkReply [Redirect "/admin"] None).
Proof.
  intros Hc Ha Hi Ht Hne.
  rewrite (serve_run _ c w _ _
             (demote_other_run (mkAdminBody s) a i t
                (mkHState (users w) (caller c w) []) Hc Ha Hi Ht Hne)).
  simpl. by rewrite decide_True.
Qed.

(** C7. A demote request of an admin caller whose target is the caller's
    own document (the target's e-mail is the session's) is answered with the
    cannot-demote-yourself page and changes nothing: collection and
    sessions stay as they were, so the caller's role is admin as before,
    in the document and in the session. *)
Theorem demote_self_refused c w s a i t :
  caller c w = Some a →
  SessionUser.type a = "admin" →
  parse_ObjectId s = Some i →
  findOne (by_id i) (users w) = Some t →
  User.email t = SessionUser.email a →
  let out := serve (demote (mkAdminBody s)) c w in
  out = (w, mkReply [Send cannot_demote_yourself_page] None) ∧
  findOne (by_id i) (users out.1) = Some t ∧
  caller c out.1 = Some a.
Proof.
  intros Hc Ha Hi Ht He out. subst out.
  rewrite (serve_pure _ c w Return [Send cannot_demote_yourself_page]).
  - done.
  - by rewrite (demote_self_run (mkAdminBody s) a i t
                  (mkHState (users w) (caller c w) []) Hc Ha Hi Ht He).
Qed.

(** C8, what the code does. A demote request of an admin caller whose
    well-formed target identifier matches no document: the collection is
    left as it was, but the handler does not stop at the not-found
    response; it goes on to read the e-mail of the missing target, and the
    catch clause then sets status 500 and renders the error view on the
    same response. *)
Theorem demote_missing_target_falls_through c w s a i :
  caller c w = Some a →
  SessionUser.type a = "admin" →
  parse_ObjectId s = Some i →
  findOne (by_id i) (users w) = None →
  serve (demote (mkAdminBody s)) c w
  = (w, mkReply
          [Status 404; Render "404" [("page", LStr "404")];
           Status 500; Render "error" [("message", LStr "Error demoting user")]]
          None).
Proof.
  intros Hc Ha Hi Ht.
  apply (serve_pure _ c w (Next ())).
  by rewrite (demote_missing_run (mkAdminBody s) a i
                (mkHState (users w) (caller c w) []) Hc Ha Hi Ht).
Qed.

(** C10. A promote request of an admin caller whose well-formed target
    identifier matches no document: no document changes, and the reply is
    the redirect to /admin, the same reply as when the target exists. *)
Theorem promote_missing_target_redirects c w s a i :
  caller c w = Some a →
  SessionUser.type a = "admin" →
  parse_ObjectId s = Some i →
  findOne (by_id i) (users w) = None →
  serve (promote (mkAdminBody s)) c w = (w, mkReply [Redirect "/admin"] None) ∧
  (∀ c' w' a' t,
     caller c' w' = Some a' → SessionUser.type a' = "admin" →
     findOne (by_id i) (users w') = Some t →
     (serve (promote (mkAdminBody s)) c' w').2
     = (serve (promote (mkAdminBody s)) c w).2).
Proof.
  intros Hc Ha Hi Ht. split.
  - rewrite (serve_promote c w s a i Hc Ha Hi).
    rewrite (updateOne_None _ _ _ Ht). by rewrite world_eta.
  - intros c' w' a' t Hc' Ha' _.
    by rewrite (serve_promote c w s a i Hc Ha Hi),
      (serve_promote c' w' s a' i Hc' Ha' Hi).
Qed.

(** ** Sessions under promote and demote *)

Lemma keeps_session_ret {A : Type} (a : A) : keeps_session (mret a).
Proof. by intros st. Qed.

Lemma keeps_session_bind {A B : Type} (m : Handler A) (k : A → Handler B) :
  keeps_session m → (∀ a, keeps_session (k a)) → keeps_session (m ≫= k).
Proof.
  intros Hm Hk st. unfold mbind, handler_bind.
  specialize (Hm st). destruct (m st) as [[a| |e] st']; simpl in *;
    [by rewrite Hk | done | done].
Qed.

Lemma keeps_session_try_catch body handler :
  keeps_session body → (∀ e, keeps_session (handler e)) →
  keeps_session (try_catch body handler).
Proof.
  intros Hb Hh st. unfold try_catch.
  specialize (Hb st). destruct (body st) as [[a| |e] st']; simpl in *;
    [done | done | by rewrite Hh].
Qed.

Lemma keeps_session_when c body : keeps_session body → keeps_session (when_ c body).
Proof. intros Hb. destruct c; [exact Hb | apply keeps_session_ret]. Qed.

Lemma keeps_session_return {A : Type} : keeps_session (@return_ A).
Proof. by intros st. Qed.

Lemma keeps_session_throw {A : Type} e : keeps_session (@throw A e).
Proof. by intros st. Qed.

Lemma keeps_session_prop {O A : Type} (o : option O) (f : O → A) :
  keeps_session (prop o f).
Proof. by destruct o; intros st. Qed.

Lemma keeps_session_emit a : keeps_session (emit a).
Proof. by intros st. Qed.

Lemma keeps_session_get : keeps_session get_session_user.
Proof. by intros st. Qed.

Lemma keeps_session_findOne q : keeps_session (users_findOne q).
Proof. by intros st. Qed.

Lemma keeps_session_updateOne q f : keeps_session (users_updateOne q f).
Proof. by intros st. Qed.

Lemma keeps_session_new_ObjectId s : keeps_session (new_ObjectId s).
Proof. unfold new_ObjectId. by destruct (parse_ObjectId s); intros st. Qed.

Create HintDb session discriminated.

#[local] Hint Resolve keeps_session_ret keeps_session_bind
  keeps_session_try_catch keeps_session_when keeps_session_return
  keeps_session_throw keeps_session_prop keeps_session_emit
  keeps_session_get keeps_session_findOne keeps_session_updateOne
  keeps_session_new_ObjectId : session.

#[local] Hint Unfold res_status res_send res_sendStatus res_render
  res_redirect : session.

Lemma promote_keeps_session body : keeps_session (promote body).
Proof. unfold promote. auto 20 with session. Qed.

Lemma demote_keeps_session body : keeps_session (demote body).
Proof. unfold demote. auto 30 with session. Qed.

Lemma serve_keeps_sessions h c w :
  keeps_session h →
  sessions (serve h c w).1 = sessions w ∧ set_cookie (serve h c w).2 = None.
Proof.
  intros Hk.
  destruct (h (mkHState (users w) (caller c w) [])) as [r st] eqn:E.
  rewrite (serve_run _ _ _ _ _ E).
  specialize (Hk (mkHState (users w) (caller c w) [])). rewrite E in Hk.
  simpl in Hk. by rewrite decide_True.
Qed.

(** C9. Whatever the request and its caller, promote and demote leave
    the session store exactly as it was and send no session cookie: every
    issued session keeps the user snapshot, role included, it had. *)
Theorem role_change_keeps_sessions body c w :
  sessions (serve (promote body) c w).1 = sessions w ∧
  sessions (serve (demote body) c w).1 = sessions w ∧
  set_cookie (serve (promote body) c w).2 = None ∧
  set_cookie (serve (demote body) c w).2 = None.
Proof.
  destruct (serve_keeps_sessions _ c w (promote_keeps_session body)) as [-> ->].
  destruct (serve_keeps_sessions _ c w (demote_keeps_session body)) as [-> ->].
  done.
Qed.

(** ** Promote, then demote *)

Lemma serve_users h c w r st :
  h (mkHState (users w) (caller c w) []) = (r, st) →
  users (serve h c w).1 = db st.
Proof. intros H. rewrite (serve_run _ _ _ _ _ H). by case_decide. Qed.

Lemma updateOne_last q f c u :
  findOne q c = None → matches q u = true →
  updateOne q f (c ++ [u]) = c ++ [f u] ∧ findOne q (c ++ [u]) = Some u.
Proof.
  intros Hc Hu. rewrite (updateOne_app_None _ _ _ _ Hc), (findOne_app_None _ _ _ Hc).
  simpl. by rewrite Hu.
Qed.

Lemma set_type_round r u : User.type u = Some r → ∀ r', set_type r (set_type r' u) = u.
Proof. intros H r'. destruct u as [i n e p t]. simpl in H. by subst t. Qed.

(** Promoting a document that is an admin already changes nothing that
    persists. *)
Lemma serve_promote_admin c w s a i t :
  caller c w = Some a →
  SessionUser.type a = "admin" →
  parse_ObjectId s = Some i →
  findOne (by_id i) (users w) = Some t →
  User.type t = Some "admin" →
  serve (promote (mkAdminBody s)) c w = (w, mkReply [Redirect "/admin"] None).
Proof.
  intros Hc Ha Hi Ht Hadm. rewrite (serve_promote c w s a i Hc Ha Hi).
  rewrite (updateOne_fixed _ _ _ t Ht).
  - by rewrite world_eta.
  - destruct t as [j n e p ty]. simpl in Hadm. by subst ty.
Qed.

(** C6. A user created by a valid signup with an unused e-mail has role
    "user"; after promote by an admin caller on that user's identifier the
    role is "admin", and after demote by an admin caller with another
    e-mail the collection is what it was after the signup, so the role is
    "user" again. Promote is idempotent: promoting a document whose role is
    admin already leaves collection and sessions as they were. *)
Theorem promote_then_demote_restores_role
    lib salt c0 w0 name email password s c1 a1 c2 a2 :
  valid_signup lib name email password →
  (∀ u, u ∈ users w0 → User.email u ≠ toLowerCase email) →
  let i := fresh_id (users w0) in
  let w1 :=
    (serve (signupSubmit lib salt
              (mkSignupBody (Some name) (Some email) (Some password))) c0 w0).1 in
  let w2 := (serve (promote (mkAdminBody s)) c1 w1).1 in
  let w3 := (serve (demote (mkAdminBody s)) c2 w2).1 in
  parse_ObjectId s = Some i →
  caller c1 w1 = Some a1 → SessionUser.type a1 = "admin" →
  caller c2 w2 = Some a2 → SessionUser.type a2 = "admin" →
  SessionUser.email a2 ≠ toLowerCase email →
  (∃ u,
     findOne (by_id i) (users w1) = Some u ∧
     User.email u = toLowerCase email ∧
     User.type u = Some "user" ∧
     findOne (by_id i) (users w2) = Some (set_type "admin" u) ∧
     findOne (by_id i) (users w3) = Some u ∧
     users w3 = users w1) ∧
  (∀ c w a t,
     caller c w = Some a → SessionUser.type a = "admin" →
     findOne (by_id i) (users w) = Some t → User.type t = Some "admin" →
     (serve (promote (mkAdminBody s)) c w).1 = w) ∧
  (serve (promote (mkAdminBody s)) c1 w2).1 = w2.
Proof.
  intros Hvalid Hunused i w1 w2 w3 Hi Hc1 Ha1 Hc2 Ha2 Hother.
  assert (Hfind : findOne (by_email (toLowerCase email)) (users w0) = None).
  { apply findOne_None. intros u Hu. simpl. apply bool_decide_eq_false. auto. }
  set (u := User.mk i name (toLowerCase email) (bcrypt_hash lib password salt)
              (Some "user")).
  assert (Hw1 : users w1 = users w0 ++ [u]).
  { subst w1.
    by rewrite (serve_users _ c0 w0 _ _
                  (signup_fresh_run lib salt _ name email password
                     (mkHState (users w0) (caller c0 w0) [])
                     (signupSchema_validate_ok _ _ _ _ Hvalid) Hfind)). }
  assert (Hmatch : matches (by_id i) u = true).
  { simpl. by apply bool_decide_eq_true. }
  assert (Hu' : matches (by_id i) (set_type "admin" u) = true).
  { simpl. by apply bool_decide_eq_true. }
  pose proof (findOne_fresh_id (users w0)) as Hfresh. fold i in Hfresh.
  assert (Hw2 : w2 = mkWorld (users w0 ++ [set_type "admin" u]) (sessions w1)).
  { subst w2. rewrite (serve_promote c1 w1 s a1 i Hc1 Ha1 Hi). simpl.
    rewrite Hw1. by rewrite (proj1 (updateOne_last _ _ _ u Hfresh Hmatch)). }
  assert (Hf2 : findOne (by_id i) (users w2) = Some (set_type "admin" u)).
  { rewrite Hw2. simpl. apply (updateOne_last _ id _ _ Hfresh Hu'). }
  assert (Hw3 : users w3 = users w0 ++ [u]).
  { subst w3.
    rewrite (serve_demote_other c2 w2 s a2 i _ Hc2 Ha2 Hi Hf2); [|by simpl].
    simpl. rewrite Hw2. simpl.
    rewrite (proj1 (updateOne_last _ _ _ _ Hfresh Hu')).
    by rewrite (set_type_round "user" u). }
  split_and!.
  - exists u. rewrite Hw3, Hw1.
    by rewrite (proj2 (updateOne_last _ id _ _ Hfresh Hmatch)).
  - intros c w a t Hc Ha Ht Hadm.
    by rewrite (serve_promote_admin c w s a i t Hc Ha Hi Ht Hadm).
  - assert (Hc1' : caller c1 w2 = Some a1).
    { rewrite Hw2. exact Hc1. }
    by rewrite (serve_promote_admin c1 w2 s a1 i _ Hc1' Ha1 Hi Hf2).
Qed.

(** * The theorems on concrete requests *)

Lemma length_append (s1 s2 : string) :
  String.length (s1 +:+ s2) = (String.length s1 + String.length s2)%nat.
Proof.
  induction s1 as [|a s1 IH]; [done|].
  change (String a s1 +:+ s2) with (String a (s1 +:+ s2)). simpl. by rewrite IH.
Qed.

Lemma demo_hash_not_plain p s : bcrypt_hash demo_lib p s ≠ p.
Proof.
  simpl. intros H. apply (f_equal String.length) in H.
  rewrite length_append in H. simpl in H. lia.
Qed.

Lemma valid_signup_ada : valid_signup demo_lib "Ada" "Ada@x.com" "secret1".
Proof.
  unfold valid_signup.
  split_and!; [done | simpl; lia | done | reflexivity | simpl; lia].
Qed.

Lemma signup_creates_user_witness :
  ∃ u,
    users (serve (signupSubmit demo_lib "salt" ada_form) anonymous world_root).1
    = [root_doc; u] ∧
    User.name u = "Ada" ∧
    User.email u = "ada@x.com" ∧
    User.type u = Some "user" ∧
    User.password u = "$2b$10$secret1" ∧
    User.password u ≠ "secret1" ∧
    sessions (serve (signupSubmit demo_lib "salt" ada_form) anonymous world_root).1
      !! "new-sid"
    = Some (Some (SessionUser.mk None "Ada" "ada@x.com" "user")) ∧
    (∀ k, k ≠ "new-sid" →
       sessions (serve (signupSubmit demo_lib "salt" ada_form) anonymous world_root).1
         !! k
       = sessions world_root !! k) ∧
    (caller anonymous world_root = None →
       set_cookie (serve (signupSubmit demo_lib "salt" ada_form) anonymous world_root).2
       = Some "new-sid") ∧
    calls (serve (signupSubmit demo_lib "salt" ada_form) anonymous world_root).2
    = [Redirect "/members"].
Proof.
  apply (signup_creates_user demo_lib "salt" anonymous world_root
           "Ada" "Ada@x.com" "secret1" demo_hash_not_plain valid_signup_ada).
  intros u Hu. apply list_elem_of_singleton in Hu as ->. done.
Defined.

Lemma valid_login_ada : valid_login demo_lib "Ada@x.com" "secret1".
Proof. unfold valid_login. split_and!; [done | reflexivity | done]. Qed.

Lemma login_lookup_is_case_sensitive_witness :
  serve (loginSubmit demo_lib (mkLoginBody (Some "Ada@x.com") (Some "secret1")))
    anonymous world_ada
  = (world_ada, mkReply [Send invalid_credentials_page] None).
Proof.
  apply (login_lookup_is_case_sensitive demo_lib anonymous world_ada
           "Ada@x.com" "secret1" ada_doc valid_login_ada);
    reflexivity.
Defined.

(** The same request with the e-mail in the stored case logs in. *)
Example login_exact_case :
  (serve (loginSubmit demo_lib (mkLoginBody (Some "ada@x.com") (Some "secret1")))
     anonymous world_ada).2
  = mkReply [Redirect "/members"] (Some "new-sid").
Proof. reflexivity. Qed.

(** C3 as stated fails on input that does not pass validation: for the
    registered e-mail with the (incorrect) empty password the reply is
    Joi's message about the password, not the invalid-credentials page the
    unregistered e-mail gets. *)
Lemma login_failure_replies_differ :
  findOne (by_email "ada@x.com") (users world_ada) = Some ada_doc ∧
  bcrypt_compare demo_lib EmptyString (User.password ada_doc) = false ∧
  findOne (by_email "bob@x.com") (users world_ada) = None ∧
  (serve (loginSubmit demo_lib (mkLoginBody (Some "ada@x.com") (Some EmptyString)))
     anonymous world_ada).2
  = mkReply
      [Send (validation_page (quoted "password" +:+ " is not allowed to be empty")
               "/login")] None ∧
  (serve (loginSubmit demo_lib (mkLoginBody (Some "bob@x.com") (Some "guess")))
     anonymous world_ada).2
  = mkReply [Send invalid_credentials_page] None ∧
  (serve (loginSubmit demo_lib (mkLoginBody (Some "ada@x.com") (Some EmptyString)))
     anonymous world_ada).2
  ≠ (serve (loginSubmit demo_lib (mkLoginBody (Some "bob@x.com") (Some "guess")))
       anonymous world_ada).2.
Proof. split_and!; try reflexivity. vm_compute. discriminate. Qed.

Lemma login_failure_indistinguishable_witness :
  (serve (loginSubmit demo_lib (mkLoginBody (Some "ada@x.com") (Some "wrong")))
     anonymous world_ada).1 = world_ada ∧
  (serve (loginSubmit demo_lib (mkLoginBody (Some "bob@x.com") (Some "guess")))
     as_root world_root).1 = world_root ∧
  (serve (loginSubmit demo_lib (mkLoginBody (Some "ada@x.com") (Some "wrong")))
     anonymous world_ada).2 = mkReply [Send invalid_credentials_page] None ∧
  (serve (loginSubmit demo_lib (mkLoginBody (Some "bob@x.com") (Some "guess")))
     as_root world_root).2
  = (serve (loginSubmit demo_lib (mkLoginBody (Some "ada@x.com") (Some "wrong")))
       anonymous world_ada).2.
Proof.
  destruct (login_failure_indistinguishable demo_lib anonymous world_ada
              "ada@x.com" "wrong" ada_doc as_root world_root "bob@x.com" "guess")
    as (H1 & _ & H2 & _ & H3); try reflexivity.
  destruct H3 as [H3 H4].
  - unfold valid_login. split_and!; [done | reflexivity | done].
  - unfold valid_login. split_and!; [done | reflexivity | done].
  - split_and!; [exact H1 | exact H2 | exact H3 | exact H4].
Defined.

(** C4 as stated fails on input that does not pass validation: with a
    password of three characters the reply is Joi's message about the
    password, not the already-registered page. *)
Lemma signup_duplicate_invalid_reply :
  ada_doc ∈ users world_ada ∧
  User.email ada_doc = toLowerCase "Ada@x.com" ∧
  calls (serve (signupSubmit demo_lib "salt"
                  (mkSignupBody (Some "Bob") (Some "Ada@x.com") (Some "abc")))
           anonymous world_ada).2
  = [Send (validation_page
             (quoted "password" +:+ " length must be at least 6 characters long")
             "/signup")] ∧
  calls (serve (signupSubmit demo_lib "salt"
                  (mkSignupBody (Some "Bob") (Some "Ada@x.com") (Some "abc")))
           anonymous world_ada).2
  ≠ [Send already_registered_page].
Proof.
  split_and!; try reflexivity.
  - unfold world_ada. simpl. set_solver.
  - vm_compute. discriminate.
Qed.

Lemma signup_duplicate_rejected_witness :
  (serve (signupSubmit demo_lib "salt" ada_form) anonymous world_ada).1 = world_ada ∧
  set_cookie (serve (signupSubmit demo_lib "salt" ada_form) anonymous world_ada).2
  = None ∧
  calls (serve (signupSubmit demo_lib "salt" ada_form) anonymous world_ada).2
  = [Send already_registered_page].
Proof.
  destruct (signup_duplicate_rejected demo_lib "salt" anonymous world_ada
              ada_form "Ada@x.com" ada_doc) as (H1 & H2 & H3).
  - reflexivity.
  - unfold world_ada. simpl. set_solver.
  - reflexivity.
  - split_and!; [exact H1 | exact H2 |].
    apply (H3 "Ada" "secret1"); [reflexivity | exact valid_signup_ada].
Defined.

Lemma gate_redirects_or_forbids_witness :
  serve members anonymous world_ada = (world_ada, mkReply [Redirect "/"] None) ∧
  serve admin anonymous world_ada = (world_ada, mkReply [Redirect "/login"] None) ∧
  serve admin as_ada world_ada
  = (world_ada, mkReply [Status 403; Render "403" [("page", LStr "403")]] None).
Proof.
  destruct (gate_redirects_or_forbids anonymous world_ada) as [Hout _].
  destruct (gate_redirects_or_forbids as_ada world_ada) as [_ Hin].
  destruct (Hout eq_refl) as [Hm Ha].
  split_and!; [exact Hm | exact Ha |].
  apply (Hin ada); [reflexivity | discriminate].
Defined.

Lemma promote_then_demote_restores_role_witness :
  users (serve (demote (mkAdminBody ada_id)) as_root
           (serve (promote (mkAdminBody ada_id)) as_root
              (serve (signupSubmit demo_lib "salt" ada_form) anonymous world_root).1).1).1
  = users (serve (signupSubmit demo_lib "salt" ada_form) anonymous world_root).1 ∧
  (serve (promote (mkAdminBody ada_id)) as_root
     (serve (promote (mkAdminBody ada_id)) as_root
        (serve (signupSubmit demo_lib "salt" ada_form) anonymous world_root).1).1).1
  = (serve (promote (mkAdminBody ada_id)) as_root
       (serve (signupSubmit demo_lib "salt" ada_form) anonymous world_root).1).1.
Proof.
  destruct (promote_then_demote_restores_role demo_lib "salt" anonymous world_root
              "Ada" "Ada@x.com" "secret1" ada_id as_root root as_root root)
    as ((u & _ & _ & _ & _ & _ & Husers) & _ & Hidem).
  - exact valid_signup_ada.
  - intros u Hu. apply list_elem_of_singleton in Hu as ->. done.
  - reflexivity.
  - reflexivity.
  - reflexivity.
  - reflexivity.
  - reflexivity.
  - discriminate.
  - split; [exact Husers | exact Hidem].
Defined.

Lemma demote_self_refused_witness :
  serve (demote (mkAdminBody root_id)) as_root world_ada
  = (world_ada, mkReply [Send cannot_demote_yourself_page] None) ∧
  findOne (by_id 1) (users (serve (demote (mkAdminBody root_id)) as_root world_ada).1)
  = Some root_doc ∧
  caller as_root (serve (demote (mkAdminBody root_id)) as_root world_ada).1
  = Some root.
Proof.
  apply (demote_self_refused as_root world_ada root_id root 1 root_doc);
    reflexivity.
Defined.

Lemma demote_missing_target_falls_through_witness :
  serve (demote (mkAdminBody no_id)) as_root world_ada
  = (world_ada,
     mkReply
       [Status 404; Render "404" [("page", LStr "404")];
        Status 500; Render "error" [("message", LStr "Error demoting user")]]
       None).
Proof.
  apply (demote_missing_target_falls_through as_root world_ada no_id root 255);
    reflexivity.
Defined.

Lemma promote_missing_target_redirects_witness :
  serve (promote (mkAdminBody no_id)) as_root world_ada
  = (world_ada, mkReply [Redirect "/admin"] None).
Proof.
  apply (promote_missing_target_redirects as_root world_ada no_id root 255);
    reflexivity.
Defined.

(** * Further properties of the application *)

(** ** What the schemas accept *)

Lemma joi_string_inr_rule key rule v s :
  joi_string key rule v = inr s → s ≠ EmptyString ∧ rule s = None.
Proof.
  unfold joi_string. destruct v as [x|]; [|done].
  case_bool_decide as Hx; [done|]. destruct (rule x) eqn:Hr; [done|].
  by intros [= <-].
Qed.


Lemma loginSchema_validate_iff lib body email password :
  loginSchema_validate lib body = inr (email, password) ↔
  body = mkLoginBody (Some email) (Some password) ∧
  valid_login lib email password.
Proof.
  split.
  - intros Hv. pose proof (loginSchema_validate_inr _ _ _ _ Hv) as ->.
    split; [done|]. revert Hv. unfold loginSchema_validate.
    cbn [li_email li_password].
    destruct (joi_string "email" _ _) as [|e] eqn:Ee; [done|].
    destruct (joi_string "password" _ _) as [|p] eqn:Ep; [done|].
    intros [= -> ->].
    apply joi_string_inr_rule in Ee as [He Hmail].
    apply joi_string_inr_rule in Ep as [Hp _].
    unfold joi_email_rule in Hmail.
    destruct (joi_email lib email) eqn:H3; done.
  - intros [-> Hvalid]. by apply loginSchema_validate_ok.
Qed.


(** X3. A form the schema rejects changes nothing: signup and login answer
    with the page of Joi's message and a link back to the form, and the
    collection and the sessions stay as they were. A missing name is
    reported before anything about the e-mail or the password. *)
Theorem rejected_form_changes_nothing lib salt c w :
  (∀ body e,
     signupSchema_validate lib body = inl e →
     serve (signupSubmit lib salt body) c w
     = (w, mkReply [Send (validation_page e "/signup")] None)) ∧
  (∀ body e,
     loginSchema_validate lib body = inl e →
     serve (loginSubmit lib body) c w
     = (w, mkReply [Send (validation_page e "/login")] None)) ∧
  (∀ email password,
     signupSchema_validate lib (mkSignupBody None email password)
     = inl (quoted "name" +:+ " is required")).
Proof.
  split_and!.
  - intros body e Hv. apply (serve_pure _ c w Return).
    by rewrite (signup_invalid_run lib salt body e _ Hv).
  - intros body e Hv. apply (serve_pure _ c w Return).
    by rewrite (login_invalid_run lib body e _ Hv).
  - done.
Qed.

(** ** Logging in *)

(** What [serve] stores when the handler leaves a user in the session. *)
Lemma serve_sets_session h c w r st a :
  h (mkHState (users w) (caller c w) []) = (r, st) →
  session_user st = Some a →
  users (serve h c w).1 = db st ∧
  sessions (serve h c w).1 !! (load_session c w).1 = Some (Some a) ∧
  (∀ k, k ≠ (load_session c w).1 →
     sessions (serve h c w).1 !! k = sessions w !! k) ∧
  calls (serve h c w).2 = response st.
Proof.
  intros Hrun Ha. rewrite (serve_run _ _ _ _ _ Hrun). rewrite Ha.
  case_decide as Hc; simpl.
  - split_and!; try done. by apply caller_Some.
  - split_and!; try done.
    + apply lookup_insert_eq.
    + intros k Hk. by apply lookup_insert_ne.
Qed.

Lemma serve_login_match lib c w email password u :
  valid_login lib email password →
  findOne (by_email email) (users w) = Some u →
  bcrypt_compare lib password (User.password u) = true →
  let out := serve (loginSubmit lib (mkLoginBody (Some email) (Some password))) c w in
  users out.1 = users w ∧
  sessions out.1 !! (load_session c w).1
  = Some (Some (SessionUser.mk (Some (User._id u)) (User.name u) (User.email u)
                  (or_default (User.type u) "user"))) ∧
  (∀ k, k ≠ (load_session c w).1 → sessions out.1 !! k = sessions w !! k) ∧
  calls out.2 = [Redirect "/members"].
Proof.
  intros Hv Hu Hcmp out. subst out.
  exact (serve_sets_session _ c w _ _ _
           (login_match_run lib _ email password u
              (mkHState (users w) (caller c w) [])
              (loginSchema_validate_ok _ _ _ Hv) Hu Hcmp) eq_refl).
Qed.

(** X4. A login that passes validation, with the e-mail of a document
    exactly as stored and a password bcrypt accepts for it: the collection
    is unchanged, the request's session holds the snapshot of that document
    (its identifier, name and e-mail, and its role, "user" when the document
    has none), no other session is touched, and the reply is the redirect
    to /members, for an admin as for a user. *)
Theorem login_establishes_snapshot lib c w email password u :
  valid_login lib email password →
  findOne (by_email email) (users w) = Some u →
  bcrypt_compare lib password (User.password u) = true →
  let out := serve (loginSubmit lib (mkLoginBody (Some email) (Some password))) c w in
  users out.1 = users w ∧
  sessions out.1 !! (load_session c w).1
  = Some (Some (SessionUser.mk (Some (User._id u)) (User.name u) (User.email u)
                  (or_default (User.type u) "user"))) ∧
  (∀ k, k ≠ (load_session c w).1 → sessions out.1 !! k = sessions w !! k) ∧
  calls out.2 = [Redirect "/members"].
Proof. apply serve_login_match. Qed.

(** X5. Login never writes the collection, and it authenticates only on a
    match: if a login changes the session store, sends a session cookie or
    redirects to /members, then the body passed validation, a document has
    exactly the submitted e-mail, and bcrypt accepted the password for the
    first such document. *)
Theorem login_authenticates_only_on_match lib body c w :
  let out := serve (loginSubmit lib body) c w in
  users out.1 = users w ∧
  (sessions out.1 ≠ sessions w ∨ set_cookie out.2 ≠ None ∨
   calls out.2 = [Redirect "/members"] →
   ∃ email password u,
     body = mkLoginBody (Some email) (Some password) ∧
     valid_login lib email password ∧
     findOne (by_email email) (users w) = Some u ∧
     bcrypt_compare lib password (User.password u) = true).
Proof.
  intros out. subst out.
  destruct (loginSchema_validate lib body) as [e|[email password]] eqn:Hv.
  { rewrite (serve_pure _ c w Return [Send (validation_page e "/login")]).
    2:{ by rewrite (login_invalid_run lib body e _ Hv). }
    simpl. split; [done|]. intros [H|[H|H]]; done. }
  destruct (findOne (by_email email) (users w)) as [u|] eqn:Hu.
  2:{ rewrite (serve_pure _ c w Return [Send invalid_credentials_page]).
      2:{ by rewrite (login_unknown_run lib body email password
                        (mkHState (users w) (caller c w) []) Hv Hu). }
      simpl. split; [done|]. intros [H|[H|H]]; done. }
  destruct (bcrypt_compare lib password (User.password u)) eqn:Hcmp.
  2:{ rewrite (serve_pure _ c w Return [Send invalid_credentials_page]).
      2:{ by rewrite (login_mismatch_run lib body email password u
                        (mkHState (users w) (caller c w) []) Hv Hu Hcmp). }
      simpl. split; [done|]. intros [H|[H|H]]; done. }
  split.
  - by rewrite (serve_users _ c w _ _
                  (login_match_run lib body email password u
                     (mkHState (users w) (caller c w) []) Hv Hu Hcmp)).
  - intros _. exists email, password, u.
    apply loginSchema_validate_iff in Hv as [-> Hvalid]. done.
Qed.

Lemma toLowerCase_not_empty s : s ≠ EmptyString → toLowerCase s ≠ EmptyString.
Proof. by destruct s. Qed.

Lemma lower_ascii_idemp a : lower_ascii (lower_ascii a) = lower_ascii a.
Proof. destruct a as [[] [] [] [] [] [] [] []]; reflexivity. Qed.

Lemma toLowerCase_idemp s : toLowerCase (toLowerCase s) = toLowerCase s.
Proof.
  induction s as [|a s IH]; simpl; [done|]. by rewrite lower_ascii_idemp, IH.
Qed.

(** The collection after a signup that is accepted. *)
Lemma serve_signup_fresh_users lib salt c w name email password :
  valid_signup lib name email password →
  findOne (by_email (toLowerCase email)) (users w) = None →
  users (serve (signupSubmit lib salt
                  (mkSignupBody (Some name) (Some email) (Some password))) c w).1
  = users w ++
    [User.mk (fresh_id (users w)) name (toLowerCase email)
       (bcrypt_hash lib password salt) (Some "user")].
Proof.
  intros Hvalid Hfind.
  by rewrite (serve_users _ c w _ _
                (signup_fresh_run lib salt _ name email password
                   (mkHState (users w) (caller c w) [])
                   (signupSchema_validate_ok _ _ _ _ Hvalid) Hfind)).
Qed.

(** X6. Signup, then login: after a valid signup with an unused e-mail, a
    login with the lowercased e-mail and the same password succeeds (bcrypt
    accepting what it hashed, and Joi accepting the lowercased address): it
    redirects to /members and the session holds the new document's
    identifier, name, lowercased e-mail and role "user". *)
Theorem signup_then_login lib salt c0 w name email password c1 :
  (∀ p s, bcrypt_compare lib p (bcrypt_hash lib p s) = true) →
  joi_email lib (toLowerCase email) = true →
  valid_signup lib name email password →
  (∀ u, u ∈ users w → User.email u ≠ toLowerCase email) →
  let w1 :=
    (serve (signupSubmit lib salt
              (mkSignupBody (Some name) (Some email) (Some password))) c0 w).1 in
  let out :=
    serve (loginSubmit lib
             (mkLoginBody (Some (toLowerCase email)) (Some password))) c1 w1 in
  users out.1 = users w1 ∧
  sessions out.1 !! (load_session c1 w1).1
  = Some (Some (SessionUser.mk (Some (fresh_id (users w))) name
                  (toLowerCase email) "user")) ∧
  calls out.2 = [Redirect "/members"].
Proof.
  intros Hbcrypt Hjoi Hvalid Hunused w1 out.
  assert (Hfind : findOne (by_email (toLowerCase email)) (users w) = None).
  { apply findOne_None. intros u Hu. simpl. apply bool_decide_eq_false. auto. }
  set (u := User.mk (fresh_id (users w)) name (toLowerCase email)
              (bcrypt_hash lib password salt) (Some "user")).
  assert (Hw1 : users w1 = users w ++ [u]).
  { subst w1. by apply serve_signup_fresh_users. }
  assert (Hu : findOne (by_email (toLowerCase email)) (users w1) = Some u).
  { rewrite Hw1, (findOne_app_None _ _ _ Hfind). simpl.
    by rewrite bool_decide_eq_true_2. }
  assert (Hlogin : valid_login lib (toLowerCase email) password).
  { destruct Hvalid as (_ & _ & He & _ & Hp). split_and!; [|done|].
    - by apply toLowerCase_not_empty.
    - intros ->. simpl in Hp. lia. }
  destruct (serve_login_match lib c1 w1 (toLowerCase email) password u
              Hlogin Hu (Hbcrypt _ _)) as (H1 & H2 & _ & H4).
  done.
Qed.

(** X7. After a valid signup, whether it was accepted or the e-mail was
    taken already, a valid signup with any letter-case variant of that
    e-mail is rejected with the already-registered page and changes
    nothing. *)
Theorem signup_again_rejected lib salt1 c1 w name1 email1 password1
    salt2 c2 name2 email2 password2 :
  valid_signup lib name1 email1 password1 →
  valid_signup lib name2 email2 password2 →
  toLowerCase email2 = toLowerCase email1 →
  let w1 :=
    (serve (signupSubmit lib salt1
              (mkSignupBody (Some name1) (Some email1) (Some password1))) c1 w).1 in
  serve (signupSubmit lib salt2
           (mkSignupBody (Some name2) (Some email2) (Some password2))) c2 w1
  = (w1, mkReply [Send already_registered_page] None).
Proof.
  intros Hv1 Hv2 Hcase w1.
  assert (∃ u, findOne (by_email (toLowerCase email2)) (users w1) = Some u)
    as [u Hu].
  { rewrite Hcase.
    destruct (findOne (by_email (toLowerCase email1)) (users w)) as [v|] eqn:Hf.
    - exists v. subst w1.
      rewrite (serve_pure _ c1 w Return [Send already_registered_page]); [done|].
      by rewrite (signup_duplicate_run lib salt1 _ name1 email1 password1 v
                    (mkHState (users w) (caller c1 w) [])
                    (signupSchema_validate_ok _ _ _ _ Hv1) Hf).
    - eexists. subst w1.
      rewrite (serve_signup_fresh_users lib salt1 c1 w _ _ _ Hv1 Hf).
      rewrite (findOne_app_None _ _ _ Hf). simpl.
      by rewrite bool_decide_eq_true_2. }
  apply (serve_pure _ c2 w1 Return).
  by rewrite (signup_duplicate_run lib salt2 _ name2 email2 password2 u
                (mkHState (users w1) (caller c2 w1) [])
                (signupSchema_validate_ok _ _ _ _ Hv2) Hu).
Qed.

(** ** Changing roles *)

Lemma not_admin_true (u : option SessionUser.t) :
  (∀ a, u = Some a → SessionUser.type a ≠ "admin") → not_admin u = true.
Proof.
  intros H. destruct u as [a|]; [|done]. unfold not_admin. simpl.
  by rewrite bool_decide_eq_false_2 by (by apply H).
Qed.

(** X8. Promote and demote are for admins only: a caller without a
    session, or with a session whose role is not admin, gets status 403
    from both, and neither the collection nor the sessions change,
    whatever the target. *)
Theorem role_change_forbidden body c w :
  (∀ a, caller c w = Some a → SessionUser.type a ≠ "admin") →
  serve (promote body) c w = (w, mkReply [SendStatus 403] None) ∧
  serve (demote body) c w = (w, mkReply [SendStatus 403] None).
Proof.
  intros H. apply not_admin_true in H. split.
  - apply (serve_pure _ c w Return). unfold promote. run_handler. by rewrite H.
  - apply (serve_pure _ c w Return). unfold demote. run_handler. by rewrite H.
Qed.

(** X9. A target identifier that is not 24 hexadecimal digits makes
    [new ObjectId] throw; for an admin caller both handlers catch it and
    answer with status 500 and the error view, and neither the collection
    nor the sessions change. *)
Theorem role_change_malformed_id s c w a :
  caller c w = Some a →
  SessionUser.type a = "admin" →
  parse_ObjectId s = None →
  serve (promote (mkAdminBody s)) c w
  = (w, mkReply [Status 500;
                 Render "error" [("message", LStr "Error promoting user")]] None) ∧
  serve (demote (mkAdminBody s)) c w
  = (w, mkReply [Status 500;
                 Render "error" [("message", LStr "Error demoting user")]] None).
Proof.
  intros Hc Ha Hs. split.
  - apply (serve_pure _ c w (Next ())). unfold promote. run_handler.
    by rewrite Hc, (not_admin_false a Ha), Hs.
  - apply (serve_pure _ c w (Next ())). unfold demote. run_handler.
    by rewrite Hc, (not_admin_false a Ha), Hs.
Qed.

(** What promote and demote do to the collection: nothing, or one
    [updateOne] on the parsed target. *)
Lemma promote_db body st :
  db (promote body st).2 = db st ∨
  ∃ i, parse_ObjectId (userId body) = Some i ∧
       db (promote body st).2 = updateOne (by_id i) (set_type "admin") (db st).
Proof.
  unfold promote. run_handler.
  destruct (not_admin (session_user st)); simpl; [by left|].
  destruct (parse_ObjectId (userId body)) as [i|]; simpl; [|by left].
  right. by exists i.
Qed.

Lemma demote_db body st :
  db (demote body st).2 = db st ∨
  ∃ i, parse_ObjectId (userId body) = Some i ∧
       db (demote body st).2 = updateOne (by_id i) (set_type "user") (db st).
Proof.
  unfold demote. run_handler.
  destruct (not_admin (session_user st)); simpl; [by left|].
  destruct (parse_ObjectId (userId body)) as [i|] eqn:Hi; simpl; [|by left].
  destruct (findOne (by_id i) (db st)) as [t|]; simpl; [|by left].
  destruct (session_user st) as [a|]; simpl; [|by left].
  case_bool_decide; simpl; [by left|].
  right. by exists i.
Qed.

Lemma updateOne_identity q r c :
  identity <$> updateOne q (set_type r) c = identity <$> c.
Proof.
  induction c as [|v c IH]; csimpl; [done|].
  destruct (matches q v); csimpl; [done|]. by rewrite IH.
Qed.

Lemma updateOne_other q f c k u :
  c !! k = Some u → matches q u = false → updateOne q f c !! k = Some u.
Proof.
  revert k. induction c as [|v c IH]; intros k; simpl; [done|].
  destruct k as [|k]; simpl.
  - intros [= ->] Hm. by rewrite Hm.
  - intros Hk Hm. destruct (matches q v); simpl; [done|]. by apply IH.
Qed.

Lemma serve_db_keeps_session h c w :
  keeps_session h →
  (serve h c w).1
  = mkWorld (db (h (mkHState (users w) (caller c w) [])).2) (sessions w).
Proof.
  intros Hk.
  destruct (h (mkHState (users w) (caller c w) [])) as [r st] eqn:E.
  rewrite (serve_run _ _ _ _ _ E).
  specialize (Hk (mkHState (users w) (caller c w) [])). rewrite E in Hk.
  simpl in Hk. by rewrite decide_True.
Qed.

(** X10. Promote and demote write nothing but one role: whatever the
    request, every document keeps its identifier, name, e-mail and password
    hash (none is added or removed), and a document whose identifier is not
    the parsed target is left exactly as it was. *)
Theorem role_change_frame body c w :
  let after_promote := users (serve (promote body) c w).1 in
  let after_demote := users (serve (demote body) c w).1 in
  identity <$> after_promote = identity <$> users w ∧
  identity <$> after_demote = identity <$> users w ∧
  (∀ k u,
     users w !! k = Some u →
     parse_ObjectId (userId body) ≠ Some (User._id u) →
     after_promote !! k = Some u ∧ after_demote !! k = Some u).
Proof.
  intros after_promote after_demote. subst after_promote after_demote.
  rewrite (serve_db_keeps_session _ c w (promote_keeps_session body)).
  rewrite (serve_db_keeps_session _ c w (demote_keeps_session body)).
  simpl.
  destruct (promote_db body (mkHState (users w) (caller c w) []))
    as [-> | (i & Hi & ->)];
  destruct (demote_db body (mkHState (users w) (caller c w) []))
    as [-> | (j & Hj & ->)]; simpl;
  rewrite ?updateOne_identity; (split_and!; [done | done |]);
  intros k u Hk Hne; split; try done;
  apply updateOne_other; try done; simpl;
  apply bool_decide_eq_false; congruence.
Qed.

(** ** Pages *)

Lemma read_only_ret {A : Type} (a : A) : read_only (mret a).
Proof. by intros st. Qed.

Lemma read_only_bind {A B : Type} (m : Handler A) (k : A → Handler B) :
  read_only m → (∀ a, read_only (k a)) → read_only (m ≫= k).
Proof.
  intros Hm Hk st. unfold mbind, handler_bind.
  specialize (Hm st). destruct (m st) as [[a| |e] st']; simpl in *;
    [|done|done].
  destruct (Hk a st') as [-> ->]. done.
Qed.

Lemma read_only_try_catch body handler :
  read_only body → (∀ e, read_only (handler e)) →
  read_only (try_catch body handler).
Proof.
  intros Hb Hh st. unfold try_catch.
  specialize (Hb st). destruct (body st) as [[a| |e] st']; simpl in *;
    [done|done|].
  destruct (Hh e st') as [-> ->]. done.
Qed.

Lemma read_only_when c body : read_only body → read_only (when_ c body).
Proof. intros Hb. destruct c; [exact Hb | apply read_only_ret]. Qed.

Lemma read_only_return {A : Type} : read_only (@return_ A).
Proof. by intros st. Qed.

Lemma read_only_prop {O A : Type} (o : option O) (f : O → A) :
  read_only (prop o f).
Proof. by destruct o; intros st. Qed.

Lemma read_only_emit a : read_only (emit a).
Proof. by intros st. Qed.

Lemma read_only_get : read_only get_session_user.
Proof. by intros st. Qed.

Lemma read_only_findOne q : read_only (users_findOne q).
Proof. by intros st. Qed.

Lemma read_only_find_toArray : read_only users_find_toArray.
Proof. by intros st. Qed.

Create HintDb frame discriminated.

#[local] Hint Resolve read_only_ret read_only_bind read_only_try_catch
  read_only_when read_only_return read_only_prop read_only_emit
  read_only_get read_only_findOne read_only_find_toArray : frame.

#[local] Hint Unfold res_status res_send res_sendStatus res_render
  res_redirect : frame.

Lemma serve_read_only h c w :
  read_only h → (serve h c w).1 = w ∧ set_cookie (serve h c w).2 = None.
Proof.
  intros Hr.
  destruct (h (mkHState (users w) (caller c w) [])) as [r st] eqn:E.
  rewrite (serve_run _ _ _ _ _ E).
  destruct (Hr (mkHState (users w) (caller c w) [])) as [Hdb Hs].
  rewrite E in Hdb, Hs. simpl in Hdb, Hs.
  rewrite decide_True by done. simpl. by rewrite Hdb, world_eta.
Qed.

Lemma pages_read_only c w :
  ((serve home c w).1 = w ∧ set_cookie (serve home c w).2 = None) ∧
  ((serve members c w).1 = w ∧ set_cookie (serve members c w).2 = None) ∧
  ((serve admin c w).1 = w ∧ set_cookie (serve admin c w).2 = None) ∧
  ((serve not_found c w).1 = w ∧ set_cookie (serve not_found c w).2 = None).
Proof.
  assert (read_only home) as Hhome by (unfold home; auto 20 with frame).
  assert (read_only members) as Hmembers by (unfold members; auto 20 with frame).
  assert (read_only admin) as Hadmin by (unfold admin; auto 20 with frame).
  assert (read_only not_found) as Hnf by (unfold not_found; auto 20 with frame).
  split_and!; by apply serve_read_only.
Qed.

(** X11. The pages only read: GET /, GET /members, GET /admin and the
    fallback for unmatched requests leave the collection and the sessions
    as they were and send no session cookie, whoever calls. The home page
    is always the index view, never a redirect, and the fallback is always
    status 404 with the 404 view. *)
Theorem pages_change_nothing c w :
  ((serve home c w).1 = w ∧ set_cookie (serve home c w).2 = None) ∧
  ((serve members c w).1 = w ∧ set_cookie (serve members c w).2 = None) ∧
  ((serve admin c w).1 = w ∧ set_cookie (serve admin c w).2 = None) ∧
  ((serve not_found c w).1 = w ∧ set_cookie (serve not_found c w).2 = None) ∧
  (∃ locals, calls (serve home c w).2 = [Render "index" locals]) ∧
  calls (serve not_found c w).2 = [Status 404; Render "404" [("page", LStr "404")]].
Proof.
  destruct (pages_read_only c w) as (H1 & H2 & H3 & H4).
  split; [done|]. split; [done|]. split; [done|]. split; [done|].
  split.
  - eexists. by rewrite (serve_pure home c w (Next ()) _ eq_refl).
  - by rewrite (serve_pure not_found c w (Next ()) _ eq_refl).
Qed.

Lemma serve_admin_forbidden c w a :
  caller c w = Some a → SessionUser.type a ≠ "admin" →
  serve admin c w
  = (w, mkReply [Status 403; Render "403" [("page", LStr "403")]] None).
Proof.
  intros Hc Hrole. apply (serve_pure _ c w Return). rewrite Hc.
  unfold admin. run_handler. by rewrite bool_decide_eq_false_2.
Qed.

Lemma serve_admin_page c w a :
  caller c w = Some a → SessionUser.type a = "admin" →
  serve admin c w
  = (w, mkReply
          [Render "admin"
             [("users", LUsers (users w)); ("loggedInConfirmation", LBool true);
              ("isAdmin", LBool true); ("page", LStr "admin")]] None).
Proof.
  intros Hc Hrole. apply (serve_pure _ c w (Next ())). rewrite Hc.
  unfold admin. run_handler. by rewrite bool_decide_eq_true_2.
Qed.

Lemma serve_members_page c w a :
  caller c w = Some a →
  serve members c w
  = (w, mkReply
          [Render "members"
             [("user", LStr (SessionUser.name a)); ("page", LStr "members");
              ("loggedInConfirmation", LBool true);
              ("isAdmin", LBool (bool_decide (SessionUser.type a = "admin")))]]
          None).
Proof. intros Hc. apply (serve_pure _ c w (Next ())). by rewrite Hc. Qed.

Lemma caller_cookie c w a :
  caller c w = Some a → cookie c = Some (load_session c w).1.
Proof.
  unfold caller, load_session. destruct (cookie c) as [sid|]; [|done].
  by destruct (sessions w !! sid).
Qed.

Lemma caller_lookup c w sid s :
  cookie c = Some sid → sessions w !! sid = Some s → caller c w = s.
Proof. unfold caller, load_session. by intros -> ->. Qed.

Lemma findOne_email_after_role i e r c t :
  findOne (by_id i) c = Some t →
  findOne (by_email e) c = Some t →
  findOne (by_email e) (updateOne (by_id i) (set_type r) c) = Some (set_type r t).
Proof.
  induction c as [|v c IH]; simpl; [done|].
  destruct (bool_decide (User._id v = i)) eqn:Hid;
    destruct (bool_decide (User.email v = e)) eqn:Hem; simpl.
  - intros [= ->] _. by rewrite Hem.
  - intros [= ->] He. apply findOne_Some in He as [_ He]. simpl in He. congruence.
  - intros Hi [= ->]. apply findOne_Some in Hi as [_ Hi]. simpl in Hi. congruence.
  - rewrite Hem. exact IH.
Qed.

(** X12. A promotion shows only after the next login. When an admin
    promotes the document of a user who holds a session with a non-admin
    role, that session still gets status 403 from GET /admin and a members
    page without the admin flag; once the user logs in again (same cookie,
    e-mail as stored, password bcrypt accepts) GET /admin renders the admin
    view with the whole collection and the members page carries the admin
    flag. *)
Theorem promotion_shows_after_login lib c w s a i t cu au password :
  caller c w = Some a → SessionUser.type a = "admin" →
  parse_ObjectId s = Some i →
  findOne (by_id i) (users w) = Some t →
  findOne (by_email (User.email t)) (users w) = Some t →
  caller cu w = Some au → SessionUser.type au ≠ "admin" →
  valid_login lib (User.email t) password →
  bcrypt_compare lib password (User.password t) = true →
  let w1 := (serve (promote (mkAdminBody s)) c w).1 in
  let w2 :=
    (serve (loginSubmit lib (mkLoginBody (Some (User.email t)) (Some password)))
       cu w1).1 in
  serve admin cu w1
  = (w1, mkReply [Status 403; Render "403" [("page", LStr "403")]] None) ∧
  serve members cu w1
  = (w1, mkReply
           [Render "members"
              [("user", LStr (SessionUser.name au)); ("page", LStr "members");
               ("loggedInConfirmation", LBool true); ("isAdmin", LBool false)]]
           None) ∧
  serve admin cu w2
  = (w2, mkReply
           [Render "admin"
              [("users", LUsers (users w2)); ("loggedInConfirmation", LBool true);
               ("isAdmin", LBool true); ("page", LStr "admin")]] None) ∧
  serve members cu w2
  = (w2, mkReply
           [Render "members"
              [("user", LStr (User.name t)); ("page", LStr "members");
               ("loggedInConfirmation", LBool true); ("isAdmin", LBool true)]]
           None).
Proof.
  intros Hc Ha Hi Ht He Hcu Hau Hv Hcmp w1 w2.
  assert (Hw1 : w1 = mkWorld (updateOne (by_id i) (set_type "admin") (users w))
                       (sessions w)).
  { subst w1. by rewrite (serve_promote c w s a i Hc Ha Hi). }
  assert (Hcu1 : caller cu w1 = Some au) by (by rewrite Hw1).
  assert (Hfind : findOne (by_email (User.email t)) (users w1)
                  = Some (set_type "admin" t)).
  { rewrite Hw1. simpl. by apply findOne_email_after_role. }
  destruct (serve_login_match lib cu w1 (User.email t) password
              (set_type "admin" t) Hv Hfind Hcmp) as (_ & Hsess & _ & _).
  fold w2 in Hsess. simpl in Hsess.
  pose proof (caller_cookie cu w1 au Hcu1) as Hcookie.
  pose proof (caller_lookup cu w2 _ _ Hcookie Hsess) as Hcu2.
  split_and!.
  - by apply (serve_admin_forbidden cu w1 au).
  - rewrite (serve_members_page cu w1 au Hcu1).
    by rewrite bool_decide_eq_false_2.
  - by apply (serve_admin_page cu w2 _ Hcu2).
  - by rewrite (serve_members_page cu w2 _ Hcu2).
Qed.

(** ** Logging out *)

(** X13. A logout whose store call succeeds removes the session of the
    request and no other, leaves the collection alone and redirects to /;
    afterwards the same cookie has no session, so GET /members redirects
    to /. When the store reports an error the reply is status 500 with a
    message that the logout did not complete, not the redirect. *)
Theorem logout_ends_session c w :
  let out := logout false c w in
  users out.1 = users w ∧
  (∀ k, k ≠ (load_session c w).1 → sessions out.1 !! k = sessions w !! k) ∧
  caller c out.1 = None ∧
  out.2 = mkReply [Redirect "/"] None ∧
  serve members c out.1 = (out.1, mkReply [Redirect "/"] None) ∧
  logout true c w
  = (w, mkReply [Status 500; Send "An error has occurred. Couldn't log you out."]
          None).
Proof.
  intros out.
  assert (Hgone : caller c out.1 = None).
  { subst out. unfold logout, caller, load_session.
    destruct (cookie c) as [sid|]; simpl; [|done].
    destruct (sessions w !! sid) as [s|] eqn:Hs; simpl.
    - by rewrite lookup_delete_eq.
    - destruct (decide (new_sid c = sid)) as [->|Hne].
      + by rewrite lookup_delete_eq.
      + by rewrite lookup_delete_ne, Hs.
  }
  split_and!; try done.
  - subst out. unfold logout. by destruct (load_session c w).
  - subst out. unfold logout. destruct (load_session c w) as [sid s0]. simpl.
    intros k Hk. by apply lookup_delete_ne.
  - subst out. unfold logout. by destruct (load_session c w).
  - apply (serve_pure _ c _ Return). by rewrite Hgone.
  - unfold logout. destruct (load_session c w). simpl. by rewrite world_eta.
Qed.

(** ** The third listing *)

(** X14. The demote handler of the third listing stops at its not-found
    branch: for an admin caller and a well-formed identifier that no
    document has, the reply is status 404 with the error view and nothing
    else, and nothing changes. On every request whose target exists, or
    whose identifier is malformed, or whose caller is not an admin, it does
    exactly what the first listing's handler does. *)
Theorem listing3_demote_not_found :
  (∀ c w s a i,
     caller c w = Some a → SessionUser.type a = "admin" →
     parse_ObjectId s = Some i →
     findOne (by_id i) (users w) = None →
     serve (Listing3.demote (mkAdminBody s)) c w
     = (w, mkReply [Status 404;
                    Render "error" [("message", LStr "User not found")]] None)) ∧
  (∀ body st,
     (∀ i, parse_ObjectId (userId body) = Some i →
           findOne (by_id i) (db st) ≠ None ∨ not_admin (session_user st) = true) →
     Listing3.demote body st = demote body st).
Proof.
  split.
  - intros c w s a i Hc Ha Hi Ht. apply (serve_pure _ c w Return).
    unfold Listing3.demote. run_handler.
    rewrite Hc, (not_admin_false a Ha), Hi. simpl. by rewrite Ht.
  - intros body st H. unfold Listing3.demote, demote. run_handler.
    destruct (not_admin (session_user st)) eqn:Hadm; simpl; [done|].
    destruct (parse_ObjectId (userId body)) as [i|] eqn:Hi; simpl; [|done].
    destruct (H i eq_refl) as [Hf|Hf]; [|done].
    destruct (findOne (by_id i) (db st)) as [t|]; [|done]. done.
Qed.

(** X15. The login handler of the third listing does to the collection
    and the sessions what the first listing's does, on every request; on a
    successful login it redirects by the role of the new session, to /admin
    for an admin and to /members otherwise. *)
Theorem listing3_login_redirects_by_role lib c w :
  (∀ body,
     (serve (Listing3.loginSubmit lib body) c w).1
     = (serve (loginSubmit lib body) c w).1) ∧
  (∀ email password u,
     valid_login lib email password →
     findOne (by_email email) (users w) = Some u →
     bcrypt_compare lib password (User.password u) = true →
     calls (serve (Listing3.loginSubmit lib
                     (mkLoginBody (Some email) (Some password))) c w).2
     = [Redirect (if bool_decide (or_default (User.type u) "user" = "admin")
                  then "/admin" else "/members")]).
Proof.
  assert (Hrun : ∀ body st,
            db (Listing3.loginSubmit lib body st).2 = db (loginSubmit lib body st).2 ∧
            session_user (Listing3.loginSubmit lib body st).2
            = session_user (loginSubmit lib body st).2).
  { intros body st. unfold Listing3.loginSubmit, loginSubmit.
    destruct (loginSchema_validate lib body) as [e|[email password]]; [done|].
    run_handler. destruct (findOne (by_email email) (db st)) as [u|]; [|done].
    simpl. destruct (bcrypt_compare lib password (User.password u)); [|done].
    simpl. by case_bool_decide. }
  split.
  - intros body.
    destruct (Listing3.loginSubmit lib body (mkHState (users w) (caller c w) []))
      as [r3 st3] eqn:E3.
    destruct (loginSubmit lib body (mkHState (users w) (caller c w) []))
      as [r1 st1] eqn:E1.
    destruct (Hrun body (mkHState (users w) (caller c w) [])) as [Hdb Hs].
    rewrite E3, E1 in Hdb, Hs. simpl in Hdb, Hs.
    rewrite (serve_run _ _ _ _ _ E3), (serve_run _ _ _ _ _ E1), Hdb, Hs.
    by case_decide.
  - intros email password u Hv Hu Hcmp.
    destruct (Listing3.loginSubmit lib (mkLoginBody (Some email) (Some password))
                (mkHState (users w) (caller c w) [])) as [r st] eqn:E.
    rewrite (serve_run _ _ _ _ _ E).
    assert (response st
            = [Redirect (if bool_decide (or_default (User.type u) "user" = "admin")
                         then "/admin" else "/members")]) as <-.
    { revert E. unfold Listing3.loginSubmit.
      rewrite (loginSchema_validate_ok _ _ _ Hv). run_handler.
      rewrite Hu. simpl. rewrite Hcmp. simpl.
      case_bool_decide; by intros [= <- <-]. }
    by case_decide.
Qed.

(** ** One request as a step *)

Lemma signup_cases lib salt body st :
  (signupSubmit lib salt body st).2
  = mkHState (db st) (session_user st) (response (signupSubmit lib salt body st).2) ∨
  ∃ name email password,
    findOne (by_email (toLowerCase email)) (db st) = None ∧
    (signupSubmit lib salt body st).2
    = mkHState
        (insertOne (λ i, User.mk i name (toLowerCase email)
                           (bcrypt_hash lib password salt) (Some "user")) (db st))
        (Some (SessionUser.mk None name (toLowerCase email) "user"))
        (response st ++ [Redirect "/members"]).
Proof.
  destruct (signupSchema_validate lib body) as [e|[[name email] password]] eqn:Hv.
  { left. by rewrite (signup_invalid_run lib salt body e st Hv). }
  destruct (findOne (by_email (toLowerCase email)) (db st)) as [u|] eqn:Hu.
  { left. by rewrite (signup_duplicate_run lib salt body _ _ _ u st Hv Hu). }
  right. exists name, email, password. split; [done|].
  by rewrite (signup_fresh_run lib salt body _ _ _ st Hv Hu).
Qed.

Lemma login_cases lib body st :
  (loginSubmit lib body st).2
  = mkHState (db st) (session_user st) (response (loginSubmit lib body st).2) ∨
  ∃ u,
    u ∈ db st ∧
    (loginSubmit lib body st).2
    = mkHState (db st)
        (Some (SessionUser.mk (Some (User._id u)) (User.name u) (User.email u)
                 (or_default (User.type u) "user")))
        (response st ++ [Redirect "/members"]).
Proof.
  destruct (loginSchema_validate lib body) as [e|[email password]] eqn:Hv.
  { left. by rewrite (login_invalid_run lib body e st Hv). }
  destruct (findOne (by_email email) (db st)) as [u|] eqn:Hu.
  2:{ left. by rewrite (login_unknown_run lib body _ _ st Hv Hu). }
  destruct (bcrypt_compare lib password (User.password u)) eqn:Hcmp.
  2:{ left. by rewrite (login_mismatch_run lib body _ _ u st Hv Hu Hcmp). }
  right. exists u. split; [by apply (findOne_Some _ _ _ Hu)|].
  by rewrite (login_match_run lib body _ _ u st Hv Hu Hcmp).
Qed.

Lemma serve_world h c w :
  (serve h c w).1
  = let st := (h (mkHState (users w) (caller c w) [])).2 in
    mkWorld (db st)
      (if decide (session_user st = caller c w) then sessions w
       else <[(load_session c w).1 := session_user st]> (sessions w)).
Proof.
  destruct (h (mkHState (users w) (caller c w) [])) as [r st] eqn:E.
  rewrite (serve_run _ _ _ _ _ E). simpl. by case_decide.
Qed.

(** The collection after a request, route by route. *)
Lemma app_users lib r c w :
  match r with
  | POST_signupSubmit salt body =>
      users (app lib r c w).1 = users w ∨
      ∃ name email hash,
        findOne (by_email (toLowerCase email)) (users w) = None ∧
        users (app lib r c w).1
        = insertOne (λ i, User.mk i name (toLowerCase email) hash (Some "user"))
            (users w)
  | POST_admin_promote body =>
      users (app lib r c w).1 = users w ∨
      ∃ i, users (app lib r c w).1
           = updateOne (by_id i) (set_type "admin") (users w)
  | POST_admin_demote body =>
      users (app lib r c w).1 = users w ∨
      ∃ i, users (app lib r c w).1
           = updateOne (by_id i) (set_type "user") (users w)
  | _ => users (app lib r c w).1 = users w
  end.
Proof.
  destruct r as [|salt body|body| |fails| |body|body|]; simpl.
  - by rewrite (proj1 (proj1 (pages_read_only c w))).
  - rewrite serve_world.
    destruct (signup_cases lib salt body (mkHState (users w) (caller c w) []))
      as [-> | (n & e & p & Hf & ->)]; simpl; [by left|].
    right. by exists n, e, (bcrypt_hash lib p salt).
  - rewrite serve_world.
    by destruct (login_cases lib body (mkHState (users w) (caller c w) []))
      as [-> | (u & _ & ->)].
  - by rewrite (proj1 (proj1 (proj2 (pages_read_only c w)))).
  - unfold logout. destruct (load_session c w). by destruct fails.
  - by rewrite (proj1 (proj1 (proj2 (proj2 (pages_read_only c w))))).
  - rewrite (serve_db_keeps_session _ c w (promote_keeps_session body)). simpl.
    destruct (promote_db body (mkHState (users w) (caller c w) []))
      as [-> | (i & _ & ->)]; [by left | right; by exists i].
  - rewrite (serve_db_keeps_session _ c w (demote_keeps_session body)). simpl.
    destruct (demote_db body (mkHState (users w) (caller c w) []))
      as [-> | (i & _ & ->)]; [by left | right; by exists i].
  - by rewrite (proj1 (proj2 (proj2 (proj2 (pages_read_only c w))))).
Qed.

Lemma app_users_step lib r c w : users_step (users w) (users (app lib r c w).1).
Proof.
  pose proof (app_users lib r c w) as H.
  destruct r; simpl in H |- *;
    try (rewrite H; apply users_same);
    destruct H as [-> | H]; try apply users_same.
  - destruct H as (n & e & h & Hf & ->). by apply users_insert.
  - destruct H as (i & ->). apply users_role. by right.
  - destruct H as (i & ->). apply users_role. by left.
Qed.

Lemma serve_sessions_step h c w :
  (let st := (h (mkHState (users w) (caller c w) [])).2 in
   session_user st = caller c w ∨
   ∃ a u, session_user st = Some a ∧ u ∈ db st ∧
          SessionUser.name a = User.name u ∧
          SessionUser.email a = User.email u ∧
          SessionUser.type a = or_default (User.type u) "user") →
  sessions_step (users (serve h c w).1) (sessions w) (sessions (serve h c w).1).
Proof.
  rewrite serve_world. simpl. intros H. case_decide as Hd; [apply sessions_same|].
  destruct H as [H | (a & u & -> & Hu & Hn & He & Ht)]; [done|].
  by apply (sessions_set _ _ _ a u).
Qed.

Lemma app_sessions_step lib r c w :
  sessions_step (users (app lib r c w).1) (sessions w) (sessions (app lib r c w).1).
Proof.
  destruct r as [|salt body|body| |fails| |body|body|]; simpl.
  - rewrite (proj1 (proj1 (pages_read_only c w))). apply sessions_same.
  - apply serve_sessions_step. simpl.
    destruct (signup_cases lib salt body (mkHState (users w) (caller c w) []))
      as [-> | (n & e & p & Hf & ->)]; simpl; [by left|].
    right.
    exists (SessionUser.mk None n (toLowerCase e) "user"),
      (User.mk (fresh_id (users w)) n (toLowerCase e)
         (bcrypt_hash lib p salt) (Some "user")).
    split_and!; try done.
    unfold insertOne. apply elem_of_app. right. by apply list_elem_of_singleton.
  - apply serve_sessions_step. simpl.
    destruct (login_cases lib body (mkHState (users w) (caller c w) []))
      as [-> | (u & Hu & ->)]; simpl; [by left|].
    right. eexists _, u. by split_and!.
  - rewrite (proj1 (proj1 (proj2 (pages_read_only c w)))). apply sessions_same.
  - unfold logout. destruct (load_session c w) as [sid s0].
    destruct fails; simpl; [apply sessions_same | apply sessions_delete].
  - rewrite (proj1 (proj1 (proj2 (proj2 (pages_read_only c w))))).
    apply sessions_same.
  - rewrite (serve_db_keeps_session _ c w (promote_keeps_session body)).
    apply sessions_same.
  - rewrite (serve_db_keeps_session _ c w (demote_keeps_session body)).
    apply sessions_same.
  - rewrite (proj1 (proj2 (proj2 (proj2 (pages_read_only c w))))).
    apply sessions_same.
Qed.

(** ** Invariants *)

Lemma updateOne_fmap {B : Type} (g : User.t → B) q upd c :
  (∀ u, g (upd u) = g u) → g <$> updateOne q upd c = g <$> c.
Proof.
  intros Hg. induction c as [|v c IH]; csimpl; [done|].
  destruct (matches q v); csimpl; [by rewrite Hg | by rewrite IH].
Qed.

Lemma Forall_updateOne (P : User.t → Prop) q upd c :
  (∀ u, P u → P (upd u)) → Forall P c → Forall P (updateOne q upd c).
Proof.
  intros Hupd. induction 1 as [|v c Hv Hc IH]; simpl; [done|].
  destruct (matches q v); constructor; auto.
Qed.

Lemma elem_of_updateOne q upd c u :
  u ∈ c → u ∈ updateOne q upd c ∨ upd u ∈ updateOne q upd c.
Proof.
  induction c as [|v c IH]; simpl; [by intros ?%elem_of_nil|].
  intros [->|Hu]%elem_of_cons.
  - destruct (matches q v); [right | left]; by left.
  - destruct (matches q v); [left; by right|].
    destruct (IH Hu); [left | right]; by right.
Qed.

Lemma fresh_id_not_in c : fresh_id c ∉ User._id <$> c.
Proof.
  intros (u & Hid & Hu)%list_elem_of_fmap.
  pose proof (max_id_ge c u Hu). unfold fresh_id in Hid. lia.
Qed.

Lemma app_keeps_ids lib r c w :
  ids_distinct w → ids_distinct (app lib r c w).1.
Proof.
  unfold ids_distinct. intros H.
  destruct (app_users_step lib r c w) as [c0 | c0 n e h Hf | c0 i ro Hro];
    [done | |].
  - unfold insertOne. rewrite fmap_app. apply NoDup_app. split_and!; [done| |].
    + intros x Hx [->|[]%elem_of_nil]%elem_of_cons.
      by apply (fresh_id_not_in c0).
    + apply NoDup_singleton.
  - by rewrite updateOne_fmap.
Qed.

(** X16. Identifiers stay distinct: if no two documents share an
    identifier before a request, none do after it, whatever the request. *)
Theorem ids_distinct_kept lib r c w :
  ids_distinct w → ids_distinct (app lib r c w).1.
Proof. apply app_keeps_ids. Qed.

Lemma app_keeps_emails lib r c w :
  emails_normal w → emails_normal (app lib r c w).1.
Proof.
  unfold emails_normal. intros [Hnd Hlow].
  destruct (app_users_step lib r c w) as [c0 | c0 n e h Hf | c0 i ro Hro];
    [done | |].
  - unfold insertOne. split.
    + rewrite fmap_app. apply NoDup_app. split_and!; [done| |apply NoDup_singleton].
      intros x (u & -> & Hu)%list_elem_of_fmap [He|[]%elem_of_nil]%elem_of_cons.
      rewrite findOne_None in Hf. specialize (Hf u Hu). simpl in Hf, He.
      by apply bool_decide_eq_false in Hf.
    + apply Forall_app. split; [done|]. constructor; [|done]. simpl.
      apply toLowerCase_idemp.
  - split; [by rewrite updateOne_fmap | by apply Forall_updateOne].
Qed.

(** X17. E-mails stay distinct and in lower case: if every stored e-mail
    is its own lowercase form and no two documents share one before a
    request, the same holds after it, whatever the request. *)
Theorem emails_normal_kept lib r c w :
  emails_normal w → emails_normal (app lib r c w).1.
Proof. apply app_keeps_emails. Qed.

Lemma is_role_or_default r : is_role r → or_default (Some r) "user" = r.
Proof. by intros [-> | ->]. Qed.

Lemma app_keeps_roles lib r c w :
  roles_binary w → roles_binary (app lib r c w).1.
Proof.
  unfold roles_binary. intros [Hdocs Hsess].
  assert (Hdocs' : Forall (λ u, ∃ ro, User.type u = Some ro ∧ is_role ro)
                     (users (app lib r c w).1)).
  { destruct (app_users_step lib r c w) as [c0 | c0 n e h Hf | c0 i ro Hro];
      [done | |].
    - unfold insertOne. apply Forall_app. split; [done|].
      constructor; [|done]. exists "user". split; [done | by left].
    - apply Forall_updateOne; [|done]. intros u _. by exists ro. }
  split; [done|].
  destruct (app_sessions_step lib r c w) as [m | m sid a u Hu Hn He Ht | m sid];
    [done | |].
  - intros k b. rewrite lookup_insert. case_decide as Hk.
    + intros [= <-]. rewrite Ht.
      rewrite Forall_forall in Hdocs'. destruct (Hdocs' u Hu) as (ro & -> & Hro).
      by rewrite (is_role_or_default ro Hro).
    + apply Hsess.
  - intros k b [_ Hk]%lookup_delete_Some. by apply (Hsess k).
Qed.

(** X18. Roles stay binary: if every document and every session snapshot
    has role user or admin before a request, the same holds after it,
    whatever the request. *)
Theorem roles_binary_kept lib r c w :
  roles_binary w → roles_binary (app lib r c w).1.
Proof. apply app_keeps_roles. Qed.

Lemma users_step_keeps c c' u :
  users_step c c' → u ∈ c →
  ∃ u', u' ∈ c' ∧ User.name u' = User.name u ∧ User.email u' = User.email u.
Proof.
  intros [c0 | c0 n e h Hf | c0 i ro Hro] Hu.
  - by exists u.
  - exists u. split; [|done]. unfold insertOne. apply elem_of_app. by left.
  - destruct (elem_of_updateOne (by_id i) (set_type ro) c0 u Hu) as [H|H].
    + by exists u.
    + by exists (set_type ro u).
Qed.

Lemma app_keeps_sessions_bound lib r c w :
  sessions_bound w → sessions_bound (app lib r c w).1.
Proof.
  unfold sessions_bound. intros Hb.
  pose proof (app_users_step lib r c w) as Hus.
  destruct (app_sessions_step lib r c w) as [m | m sid a u Hu Hn He Ht | m sid].
  - intros k b Hk. destruct (Hb k b Hk) as (v & Hv & Hvn & Hve).
    destruct (users_step_keeps _ _ v Hus Hv) as (v' & Hv' & Hn' & He').
    exists v'. split_and!; congruence.
  - intros k b. rewrite lookup_insert. case_decide as Hk.
    + intros [= <-]. by exists u.
    + intros Hk'. destruct (Hb k b Hk') as (v & Hv & Hvn & Hve).
      destruct (users_step_keeps _ _ v Hus Hv) as (v' & Hv' & Hn' & He').
      exists v'. split_and!; congruence.
  - intros k b [_ Hk]%lookup_delete_Some.
    destruct (Hb k b Hk) as (v & Hv & Hvn & Hve).
    destruct (users_step_keeps _ _ v Hus Hv) as (v' & Hv' & Hn' & He').
    exists v'. split_and!; congruence.
Qed.

(** X19. Sessions stay bound to documents: if every session snapshot
    carries the name and e-mail of some document before a request, the same
    holds after it, whatever the request. *)
Theorem sessions_bound_kept lib r c w :
  sessions_bound w → sessions_bound (app lib r c w).1.
Proof. apply app_keeps_sessions_bound. Qed.

(** X20. Documents persist: whatever the request, the documents in the
    collection before it are all there after it, in the same order and with
    the same identifier, name, e-mail and password hash; at most one
    document is added behind them, and only by a signup. *)
Theorem documents_persist lib r c w :
  ∃ new,
    identity <$> users (app lib r c w).1 = (identity <$> users w) ++ new ∧
    (length new ≤ 1)%nat ∧
    (new ≠ [] → ∃ salt body, r = POST_signupSubmit salt body).
Proof.
  pose proof (app_users lib r c w) as H.
  destruct r as [|salt body|body| |fails| |body|body|]; simpl in H |- *;
    try (exists []; rewrite H, app_nil_r; split_and!; [done | simpl; lia | done]).
  - destruct H as [-> | (n & e & h & _ & ->)].
    + exists []. rewrite app_nil_r. split_and!; [done | simpl; lia | done].
    + eexists [_]. unfold insertOne. rewrite fmap_app.
      split_and!; [done | simpl; lia | by eexists _, _].
  - exists []. rewrite app_nil_r.
    destruct H as [-> | (i & ->)]; rewrite ?updateOne_identity;
      (split_and!; [done | simpl; lia | done]).
  - exists []. rewrite app_nil_r.
    destruct H as [-> | (i & ->)]; rewrite ?updateOne_identity;
      (split_and!; [done | simpl; lia | done]).
Qed.

Lemma reachable_wf lib w :
  reachable lib w →
  ids_distinct w ∧ emails_normal w ∧ roles_binary w ∧ sessions_bound w.
Proof.
  induction 1 as [|r c w Hw (Hi & He & Hr & Hs)].
  - split_and!.
    + apply NoDup_nil_2.
    + split; [apply NoDup_nil_2 | done].
    + split; [done|]. intros sid a. simpl. by rewrite lookup_empty.
    + intros sid a. simpl. by rewrite lookup_empty.
  - split_and!.
    + by apply app_keeps_ids.
    + by apply app_keeps_emails.
    + by apply app_keeps_roles.
    + by apply app_keeps_sessions_bound.
Qed.


(** X22. From an empty database, no state is reached in which a login with
    an upper-case letter in its e-mail succeeds: every stored e-mail is in
    lower case and the lookup compares exactly, so such a login, whatever
    its password, gets a single page (Joi's or the invalid-credentials one)
    and changes nothing. *)
Theorem login_with_uppercase_never_succeeds lib w c email password :
  reachable lib w →
  toLowerCase email ≠ email →
  ∃ page,
    serve (loginSubmit lib (mkLoginBody (Some email) (Some password))) c w
    = (w, mkReply [Send page] None).
Proof.
  intros Hw Hcase.
  destruct (reachable_wf lib w Hw) as (_ & [_ Hlow] & _ & _).
  destruct (serve_login_rejected lib c w email password) as (page & Hpage & _).
  - destruct (findOne (by_email email) (users w)) as [u|] eqn:Hu; [|done].
    apply findOne_Some in Hu as [Hu Hm]. simpl in Hm.
    apply bool_decide_eq_true in Hm. rewrite Forall_forall in Hlow.
    specialize (Hlow u Hu). congruence.
  - by exists page.
Qed.

(** ** The self-demotion guard *)

Lemma demote_db_target body st :
  db (demote body st).2 = db st ∨
  ∃ i t a,
    session_user st = Some a ∧
    findOne (by_id i) (db st) = Some t ∧
    User.email t ≠ SessionUser.email a ∧
    db (demote body st).2 = updateOne (by_id i) (set_type "user") (db st).
Proof.
  unfold demote. run_handler.
  destruct (not_admin (session_user st)); simpl; [by left|].
  destruct (parse_ObjectId (userId body)) as [i|] eqn:Hi; simpl; [|by left].
  destruct (findOne (by_id i) (db st)) as [t|] eqn:Ht; simpl; [|by left].
  destruct (session_user st) as [a|]; simpl; [|by left].
  case_bool_decide as He; simpl; [by left|].
  right. by exists i, t, a.
Qed.

Lemma updateOne_spares q upd c t u :
  findOne q c = Some t → u ∈ c → u ≠ t → u ∈ updateOne q upd c.
Proof.
  induction c as [|v c IH]; simpl; [done|].
  destruct (matches q v).
  - intros [= ->] [->|Hu]%elem_of_cons Hne; [done | by right].
  - intros Ht [->|Hu]%elem_of_cons Hne; [by left | right; by apply IH].
Qed.

(** X23. No demote request touches a document with the caller's own
    e-mail: whatever the target and whoever the caller, every document
    whose e-mail is the e-mail of the caller's session is in the collection
    after the request exactly as before, so an admin cannot take the admin
    role from the own account. *)
Theorem demote_spares_caller body c w a u :
  caller c w = Some a →
  u ∈ users w →
  User.email u = SessionUser.email a →
  u ∈ users (serve (demote body) c w).1.
Proof.
  intros Hc Hu He.
  rewrite (serve_db_keeps_session _ c w (demote_keeps_session body)). simpl.
  destruct (demote_db_target body (mkHState (users w) (caller c w) []))
    as [-> | (i & t & a' & Ha' & Ht & Hne & ->)]; [done|].
  simpl in *. rewrite Hc in Ha'. injection Ha' as <-.
  apply (updateOne_spares _ _ _ t); [done | done |]. congruence.
Qed.

(** * The further properties on concrete requests *)

Lemma demo_compare_hash p s :
  bcrypt_compare demo_lib p (bcrypt_hash demo_lib p s) = true.
Proof. simpl. by apply bool_decide_eq_true. Qed.

Lemma world_root_wf :
  ids_distinct world_root ∧ emails_normal world_root ∧
  roles_binary world_root ∧ sessions_bound world_root.
Proof.
  split_and!.
  - apply NoDup_singleton.
  - split; [apply NoDup_singleton | by constructor].
  - split.
    + constructor; [|done]. exists "admin". split; [done | by right].
    + intros sid a. unfold world_root. simpl.
      intros [_ [= <-]]%lookup_singleton_Some. by right.
  - intros sid a. unfold world_root. simpl.
    intros [_ [= <-]]%lookup_singleton_Some.
    exists root_doc. split; [by left | done].
Qed.

Lemma rejected_form_changes_nothing_witness :
  serve (signupSubmit demo_lib "salt"
           (mkSignupBody (Some "Bob") (Some "bob") (Some "secret1")))
    anonymous world_ada
  = (world_ada,
     mkReply [Send (validation_page (quoted "email" +:+ " must be a valid email")
                      "/signup")] None) ∧
  serve (loginSubmit demo_lib (mkLoginBody (Some "ada@x.com") None))
    anonymous world_ada
  = (world_ada,
     mkReply [Send (validation_page (quoted "password" +:+ " is required")
                      "/login")] None).
Proof.
  destruct (rejected_form_changes_nothing demo_lib "salt" anonymous world_ada)
    as (Hs & Hl & _).
  split; [apply Hs | apply Hl]; reflexivity.
Defined.

Lemma login_establishes_snapshot_witness :
  sessions (serve (loginSubmit demo_lib
                     (mkLoginBody (Some "root@x.com") (Some "hunter22")))
              anonymous world_ada).1 !! "new-sid"
  = Some (Some root) ∧
  calls (serve (loginSubmit demo_lib
                  (mkLoginBody (Some "root@x.com") (Some "hunter22")))
           anonymous world_ada).2
  = [Redirect "/members"].
Proof.
  destruct (login_establishes_snapshot demo_lib anonymous world_ada
              "root@x.com" "hunter22" root_doc) as (_ & H2 & _ & H4).
  - unfold valid_login. split_and!; [done | reflexivity | done].
  - reflexivity.
  - reflexivity.
  - split; [exact H2 | exact H4].
Defined.

Lemma login_authenticates_only_on_match_witness :
  ∃ email password u,
    mkLoginBody (Some "ada@x.com") (Some "secret1")
    = mkLoginBody (Some email) (Some password) ∧
    valid_login demo_lib email password ∧
    findOne (by_email email) (users world_ada) = Some u ∧
    bcrypt_compare demo_lib password (User.password u) = true.
Proof.
  destruct (login_authenticates_only_on_match demo_lib
              (mkLoginBody (Some "ada@x.com") (Some "secret1"))
              anonymous world_ada) as [_ H].
  apply H. right. right. reflexivity.
Defined.

Lemma signup_then_login_witness :
  calls (serve (loginSubmit demo_lib
                  (mkLoginBody (Some "ada@x.com") (Some "secret1")))
           anonymous
           (serve (signupSubmit demo_lib "salt" ada_form) anonymous world_root).1).2
  = [Redirect "/members"].
Proof.
  destruct (signup_then_login demo_lib "salt" anonymous world_root
              "Ada" "Ada@x.com" "secret1" anonymous) as (_ & _ & H).
  - exact demo_compare_hash.
  - reflexivity.
  - exact valid_signup_ada.
  - intros u Hu. apply list_elem_of_singleton in Hu as ->. done.
  - exact H.
Defined.

Lemma signup_again_rejected_witness :
  serve (signupSubmit demo_lib "pepper"
           (mkSignupBody (Some "Ada Two") (Some "ADA@X.COM") (Some "another1")))
    anonymous
    (serve (signupSubmit demo_lib "salt" ada_form) anonymous world_root).1
  = ((serve (signupSubmit demo_lib "salt" ada_form) anonymous world_root).1,
     mkReply [Send already_registered_page] None).
Proof.
  apply (signup_again_rejected demo_lib "salt" anonymous world_root
           "Ada" "Ada@x.com" "secret1" "pepper" anonymous
           "Ada Two" "ADA@X.COM" "another1").
  - exact valid_signup_ada.
  - unfold valid_signup.
    split_and!; [done | simpl; lia | done | reflexivity | simpl; lia].
  - reflexivity.
Defined.

Lemma role_change_forbidden_witness :
  serve (promote (mkAdminBody ada_id)) as_ada world_ada
  = (world_ada, mkReply [SendStatus 403] None) ∧
  serve (demote (mkAdminBody root_id)) anonymous world_ada
  = (world_ada, mkReply [SendStatus 403] None).
Proof.
  split.
  - apply (role_change_forbidden (mkAdminBody ada_id) as_ada world_ada).
    intros a [= <-]. discriminate.
  - apply (role_change_forbidden (mkAdminBody root_id) anonymous world_ada).
    intros a [=].
Defined.

Lemma role_change_malformed_id_witness :
  serve (promote (mkAdminBody "ada")) as_root world_ada
  = (world_ada,
     mkReply [Status 500;
              Render "error" [("message", LStr "Error promoting user")]] None) ∧
  serve (demote (mkAdminBody "ada")) as_root world_ada
  = (world_ada,
     mkReply [Status 500;
              Render "error" [("message", LStr "Error demoting user")]] None).
Proof.
  apply (role_change_malformed_id "ada" as_root world_ada root); reflexivity.
Defined.

Lemma role_change_frame_witness :
  users (serve (promote (mkAdminBody ada_id)) as_root world_ada).1 !! 0%nat
  = Some root_doc ∧
  users (serve (demote (mkAdminBody ada_id)) as_root world_ada).1 !! 0%nat
  = Some root_doc.
Proof.
  destruct (role_change_frame (mkAdminBody ada_id) as_root world_ada)
    as (_ & _ & H).
  apply (H 0%nat root_doc); [reflexivity | discriminate].
Defined.

Lemma promotion_shows_after_login_witness :
  serve admin as_ada
    (serve (promote (mkAdminBody ada_id)) as_root world_ada).1
  = ((serve (promote (mkAdminBody ada_id)) as_root world_ada).1,
     mkReply [Status 403; Render "403" [("page", LStr "403")]] None) ∧
  calls (serve admin as_ada
           (serve (loginSubmit demo_lib
                     (mkLoginBody (Some "ada@x.com") (Some "secret1"))) as_ada
              (serve (promote (mkAdminBody ada_id)) as_root world_ada).1).1).2
  = [Render "admin"
       [("users", LUsers [root_doc; set_type "admin" ada_doc]);
        ("loggedInConfirmation", LBool true);
        ("isAdmin", LBool true); ("page", LStr "admin")]].
Proof.
  destruct (promotion_shows_after_login demo_lib as_root world_ada ada_id root 2
              ada_doc as_ada ada "secret1") as (H1 & _ & H3 & _);
    try reflexivity.
  - discriminate.
  - unfold valid_login. split_and!; [done | reflexivity | done].
  - split; [exact H1|]. simpl in H3. by rewrite H3.
Defined.

Lemma listing3_demote_not_found_witness :
  serve (Listing3.demote (mkAdminBody no_id)) as_root world_ada
  = (world_ada,
     mkReply [Status 404; Render "error" [("message", LStr "User not found")]]
       None) ∧
  Listing3.demote (mkAdminBody ada_id) (mkHState (users world_ada) (Some root) [])
  = demote (mkAdminBody ada_id) (mkHState (users world_ada) (Some root) []).
Proof.
  destruct listing3_demote_not_found as [H1 H2]. split.
  - apply (H1 as_root world_ada no_id root 255); reflexivity.
  - apply H2. intros i [= <-]. by left.
Defined.

Lemma listing3_login_redirects_by_role_witness :
  calls (serve (Listing3.loginSubmit demo_lib
                  (mkLoginBody (Some "root@x.com") (Some "hunter22")))
           anonymous world_ada).2
  = [Redirect "/admin"] ∧
  calls (serve (Listing3.loginSubmit demo_lib
                  (mkLoginBody (Some "ada@x.com") (Some "secret1")))
           anonymous world_ada).2
  = [Redirect "/members"].
Proof.
  destruct (listing3_login_redirects_by_role demo_lib anonymous world_ada)
    as [_ H].
  split.
  - apply (H "root@x.com" "hunter22" root_doc); try reflexivity.
    unfold valid_login. split_and!; [done | reflexivity | done].
  - apply (H "ada@x.com" "secret1" ada_doc); try reflexivity.
    unfold valid_login. split_and!; [done | reflexivity | done].
Defined.

Lemma ids_distinct_kept_witness :
  ids_distinct
    (app demo_lib (POST_signupSubmit "salt" ada_form) anonymous world_root).1.
Proof. apply ids_distinct_kept. apply world_root_wf. Defined.

Lemma emails_normal_kept_witness :
  emails_normal
    (app demo_lib (POST_signupSubmit "salt" ada_form) anonymous world_root).1.
Proof. apply emails_normal_kept. apply world_root_wf. Defined.

Lemma roles_binary_kept_witness :
  roles_binary
    (app demo_lib (POST_admin_promote (mkAdminBody root_id)) as_root world_root).1.
Proof. apply roles_binary_kept. apply world_root_wf. Defined.

Lemma sessions_bound_kept_witness :
  sessions_bound
    (app demo_lib (POST_loginSubmit
                     (mkLoginBody (Some "root@x.com") (Some "hunter22")))
       anonymous world_root).1.
Proof. apply sessions_bound_kept. apply world_root_wf. Defined.

Lemma reachable_ada :
  reachable demo_lib
    (app demo_lib (POST_signupSubmit "salt" ada_form) anonymous (mkWorld [] ∅)).1.
Proof. apply reachable_app, reachable_empty. Qed.


Lemma login_with_uppercase_never_succeeds_witness :
  ∃ page,
    serve (loginSubmit demo_lib (mkLoginBody (Some "Ada@x.com") (Some "secret1")))
      anonymous
      (app demo_lib (POST_signupSubmit "salt" ada_form) anonymous (mkWorld [] ∅)).1
    = ((app demo_lib (POST_signupSubmit "salt" ada_form) anonymous
          (mkWorld [] ∅)).1,
       mkReply [Send page] None).
Proof.
  apply (login_with_uppercase_never_succeeds demo_lib).
  - exact reachable_ada.
  - discriminate.
Defined.

Lemma demote_spares_caller_witness :
  root_doc ∈ users (serve (demote (mkAdminBody root_id)) as_root world_ada).1 ∧
  root_doc ∈ users (serve (demote (mkAdminBody ada_id)) as_root world_ada).1.
Proof.
  split.
  - apply (demote_spares_caller (mkAdminBody root_id) as_root world_ada root);
      [reflexivity | by left | reflexivity].
  - apply (demote_spares_caller (mkAdminBody ada_id) as_root world_ada root);
      [reflexivity | by left | reflexivity].
Defined.
